(** * Cash flow forecasting analysis: a shallow embedding of
      [cashflow_analysis.py] and the properties of its pipeline

    The script is one linear pipeline over a loaded workbook:
    extraction of three scenario sheets, descriptive metrics, scenario
    comparison, statistical analysis, break-even block, dashboard and
    export.  The development follows that order.

    Modelling conventions.
    - A cell value is what openpyxl hands back with [data_only=True]:
      nothing, a boolean, a number, a text or a date.
    - Amounts are exact rationals ([Q], compared with [==]): the formulas
      of the script are stated as the script writes them, without the
      rounding of binary floating point.  What numpy does when a division
      has a zero divisor (no exception: [inf], [-inf] or [nan]) is
      modelled by the type [npfloat].
    - Where the rounding decides which branch the script takes, the guard
      [std() > 0] of the correlation block, the block is modelled on
      binary64 columns (module [Binary64], on the primitive floats).  The
      figures that the run only prints from [describe()], [std()],
      [corr()] and [np.polyfit] are not part of the log of a run.
    - The analysis is modelled for amount columns that pandas holds with
      a numeric dtype: numbers of at most 2^53 in absolute value.
    - [ws.cell(r, c)] creates the cell when the sheet does not hold it
      yet, so reading a sheet updates it; the worksheet is therefore
      threaded through the extraction as explicit state.
    - Python exceptions are the [Raise] results of an error monad. *)

From Stdlib Require Import ZArith QArith Qround Qabs Lia Lqa Floats.
From stdpp Require Import base gmap strings list fin_maps pretty.

Open Scope Z_scope.

(** ** Cell values and Python truthiness *)

Inductive value : Type :=
  | VNone
  | VBool (b : bool)
  | VNum (q : Q)
  | VStr (s : string)
  | VDate (stamp : Z).

(** [bool(v)] in Python: [None], [False], numeric zero and the empty
    string are falsy; a date is always truthy. *)
Definition truthy (v : value) : bool :=
  match v with
  | VNone => false
  | VBool b => b
  | VNum q => negb (Qeq_bool q 0)
  | VStr EmptyString => false
  | VStr (String _ _) => true
  | VDate _ => true
  end.

(** [a or b] *)
Definition py_or (a b : value) : value := if truthy a then a else b.

(** ** Exceptions and the two monads of the script *)

Inductive exn : Type :=
  | KeyError (key : string)
  | IndexError
  | TypeError
  | ValueError
  | ZeroDivisionError
  | OSError
  | SystemExit (status : Z).

Inductive result (A : Type) : Type :=
  | Ok (a : A)
  | Raise (e : exn).
Arguments Ok {A} a.
Arguments Raise {A} e.

#[global] Instance result_ret : MRet result := λ A a, Ok a.
#[global] Instance result_bind : MBind result := λ A B f m,
  match m with
  | Ok a => f a
  | Raise e => Raise e
  end.

(** Code that reads or updates an object of type [S] and may raise. *)
Definition M (S A : Type) : Type := S → result A * S.

#[global] Instance M_ret {S} : MRet (M S) := λ A a s, (Ok a, s).
#[global] Instance M_bind {S} : MBind (M S) := λ A B f m s,
  match m s with
  | (Ok a, s') => f a s'
  | (Raise e, s') => (Raise e, s')
  end.

Definition lift {S A} (r : result A) : M S A := λ s, (r, s).

(** [for x in xs: acc.append(body(x))] *)
Definition for_each {S A B} (xs : list A) (body : A → M S B) : M S (list B) :=
  mapM body xs.

(** [range(lo, hi)] *)
Definition py_range (lo hi : Z) : list Z :=
  (λ i : nat, lo + Z.of_nat i) <$> seq 0 (Z.to_nat (hi - lo)).

(** ** Worksheets and workbooks *)

(** The cells a sheet holds, by (row, column), both 1-indexed.  A held
    cell may still be empty ([VNone]). *)
Abbreviation worksheet := (gmap (Z * Z) value).
Abbreviation workbook := (gmap string worksheet).

(** What a read of the cell shows, whether the sheet holds it or not. *)
Definition cell_value (ws : worksheet) (row col : Z) : value :=
  default VNone (ws !! (row, col)).

(** The sheet after [ws.cell(row, col)]: a cell that was not held is now
    held, and empty. *)
Definition touch (row col : Z) (ws : worksheet) : worksheet :=
  match ws !! (row, col) with
  | Some _ => ws
  | None => <[(row, col) := VNone]> ws
  end.

(** [ws.cell(row, col).value]; openpyxl refuses coordinates below 1. *)
Definition ws_cell (row col : Z) : M worksheet value := λ ws,
  if (row <? 1) || (col <? 1) then (Raise ValueError, ws)
  else (Ok (cell_value ws row col), touch row col ws).

(** Code run on the sheet object [wb[sheet_name]].  The sheet is shared
    with the workbook, so its updates are the workbook's. *)
Definition in_sheet {A} (sheet_name : string) (body : M worksheet A) : M workbook A := λ wb,
  match wb !! sheet_name with
  | None => (Raise (KeyError sheet_name), wb)
  | Some ws => let '(r, ws') := body ws in (r, <[sheet_name := ws']> wb)
  end.

(** ** Scenario extraction *)

Record DataFrame : Type := mkDataFrame {
  Month : list value;
  Opening_Balance : list value;
  Total_Inflows : list value;
  Total_Outflows : list value;
  Net_Cash_Flow : list value;
  Closing_Balance : list value
}.

(** [pd.DataFrame({...})] refuses columns of different lengths. *)
Definition pd_DataFrame (months opening inflows outflows net_cf closing : list value)
  : result DataFrame :=
  let n := length months in
  if (length opening =? n)%nat && (length inflows =? n)%nat && (length outflows =? n)%nat
     && (length net_cf =? n)%nat && (length closing =? n)%nat
  then Ok (mkDataFrame months opening inflows outflows net_cf closing)
  else Raise ValueError.

(** [len(df)] *)
Definition df_len (df : DataFrame) : nat := length (Month df).

(** [f"Month {col-1}"] *)
Definition month_label (col : Z) : value := VStr ("Month " +:+ pretty (col - 1)).

Definition extract_scenario_data (sheet_name : string) : M workbook DataFrame :=
  in_sheet sheet_name (
    (* month headers (row 4, columns B-J) *)
    months ← for_each (py_range 2 11) (λ col,
      month_val ← ws_cell 4 col;
      mret (if truthy month_val then month_val else month_label col));
    (* opening balance (row 5) *)
    opening ← for_each (py_range 2 11) (λ col,
      v ← ws_cell 5 col; mret (py_or v (VNum 0)));
    (* total inflows (row 13) *)
    inflows ← for_each (py_range 2 11) (λ col,
      v ← ws_cell 13 col; mret (py_or v (VNum 0)));
    (* total outflows (row 25) *)
    outflows ← for_each (py_range 2 11) (λ col,
      v ← ws_cell 25 col; mret (py_or v (VNum 0)));
    (* net cash flow (row 27) *)
    net_cf ← for_each (py_range 2 11) (λ col,
      v ← ws_cell 27 col; mret (py_or v (VNum 0)));
    (* closing balance (row 29) *)
    closing ← for_each (py_range 2 11) (λ col,
      v ← ws_cell 29 col; mret (py_or v (VNum 0)));
    lift (pd_DataFrame months opening inflows outflows net_cf closing)).

(** One period of a scenario: row [i] of the frame. *)
Record MonthlyRecord : Type := mkRecord {
  period_label : value;
  opening_balance : value;
  total_inflows : value;
  total_outflows : value;
  net_cash_flow : value;
  closing_balance : value
}.

Definition df_row (df : DataFrame) (i : nat) : option MonthlyRecord :=
  m ← Month df !! i;
  o ← Opening_Balance df !! i;
  a ← Total_Inflows df !! i;
  b ← Total_Outflows df !! i;
  n ← Net_Cash_Flow df !! i;
  c ← Closing_Balance df !! i;
  Some (mkRecord m o a b n c).

(** The series of a frame: its rows, in period order. *)
Definition records (df : DataFrame) : list MonthlyRecord :=
  omap (df_row df) (seq 0 (df_len df)).

(** ** numpy scalars *)

(** A [numpy.float64] (or the float a [numpy.int64] is divided into):
    a finite amount, or one of the three values that a division by zero
    or an undefined operation leaves.  The sign of a zero is not
    modelled: a zero divisor is [+0]. *)
Inductive npfloat : Type :=
  | Fin (q : Q)
  | PInf
  | NInf
  | NaN.

Definition is_finite (x : npfloat) : bool :=
  match x with Fin _ => true | _ => false end.

(** [a > b] on rationals *)
Definition Qgtb (a b : Q) : bool :=
  match (a ?= b)%Q with Gt => true | _ => false end.

(** The infinity with the sign of [a] times [s]; [nan] when [a] is zero. *)
Definition signed_inf (a : Q) (s : npfloat) : npfloat :=
  match (a ?= 0)%Q, s with
  | Gt, PInf | Lt, NInf => PInf
  | Gt, NInf | Lt, PInf => NInf
  | _, _ => NaN
  end.

(** [x / y]: never raises; a zero divisor gives [inf], [-inf] or [nan]. *)
Definition np_truediv (x y : npfloat) : npfloat :=
  match x, y with
  | NaN, _ | _, NaN => NaN
  | Fin a, Fin b => if Qeq_bool b 0 then signed_inf a PInf else Fin (a / b)
  | Fin _, (PInf | NInf) => Fin 0
  | PInf, Fin b => if Qgtb 0 b then NInf else PInf
  | NInf, Fin b => if Qgtb 0 b then PInf else NInf
  | (PInf | NInf), (PInf | NInf) => NaN
  end.

(** [x * y] *)
Definition np_mul (x y : npfloat) : npfloat :=
  match x, y with
  | NaN, _ | _, NaN => NaN
  | Fin a, Fin b => Fin (a * b)
  | Fin a, (PInf | NInf) => signed_inf a y
  | (PInf | NInf), Fin b => signed_inf b x
  | PInf, PInf | NInf, NInf => PInf
  | PInf, NInf | NInf, PInf => NInf
  end.

(** [x - y] *)
Definition np_sub (x y : npfloat) : npfloat :=
  match x, y with
  | NaN, _ | _, NaN => NaN
  | Fin a, Fin b => Fin (a - b)
  | Fin _, PInf => NInf
  | Fin _, NInf => PInf
  | PInf, PInf | NInf, NInf => NaN
  | PInf, _ => PInf
  | NInf, _ => NInf
  end.

(** ** Python scalars *)

(** Arithmetic on the cell values themselves is Python's, not numpy's:
    a boolean counts as 0 or 1, a division by zero raises, and a text or
    a date in an arithmetic position raises [TypeError]. *)
Definition as_number (v : value) : option Q :=
  match v with
  | VNum q => Some q
  | VBool b => Some (if b then 1 else 0)%Q
  | _ => None
  end.

(** [v / d] *)
Definition py_truediv (v : value) (d : Q) : result Q :=
  match as_number v with
  | Some a => if Qeq_bool d 0 then Raise ZeroDivisionError else Ok (a / d)%Q
  | None => Raise TypeError
  end.

Fixpoint str_repeat (s : string) (n : nat) : string :=
  match n with
  | O => EmptyString
  | S n' => s +:+ str_repeat s n'
  end.

(** [v * k] for a literal [k]: a text is repeated, a date refuses. *)
Definition py_mul (v : value) (k : nat) : result value :=
  match v with
  | VNum q => Ok (VNum (q * inject_Z (Z.of_nat k)))
  | VBool b => Ok (VNum ((if b then 1 else 0) * inject_Z (Z.of_nat k)))
  | VStr s => Ok (VStr (str_repeat s k))
  | VDate _ | VNone => Raise TypeError
  end.

(** [v > t] for a literal [t] *)
Definition py_gt (v : value) (t : Q) : result bool :=
  match as_number v with
  | Some a => Ok (Qgtb a t)
  | None => Raise TypeError
  end.

(** [f"{v:...f}"]: the value a fixed-point format shows.  A number and a
    boolean are shown as numbers; a text has no such format; a date
    takes the format as an [strftime] pattern and does not raise. *)
Definition format_f (v : value) : result value :=
  match v with
  | VNum q => Ok (VNum q)
  | VBool b => Ok (VNum (if b then 1 else 0))
  | VStr _ => Raise ValueError
  | VDate d => Ok (VDate d)
  | VNone => Raise TypeError
  end.

(** ** Series *)

(** [s.iloc[i]], negative positions counting from the end. *)
Definition iloc {A} (s : list A) (i : Z) : result A :=
  let n := Z.of_nat (length s) in
  let j := if i <? 0 then n + i else i in
  if (0 <=? j) && (j <? n) then
    match s !! Z.to_nat j with
    | Some x => Ok x
    | None => Raise IndexError
    end
  else Raise IndexError.

(** [s.sum()] *)
Definition series_sum (s : list Q) : Q := foldr Qplus 0%Q s.

Definition count (s : list Q) : Q := inject_Z (Z.of_nat (length s)).

(** [s.mean()]; [nan] on an empty series. *)
Definition series_mean (s : list Q) : npfloat :=
  np_truediv (Fin (series_sum s)) (Fin (count s)).

(** ** Numeric frames *)

(** The number a cell value is, if it is one. *)
Definition number (v : value) : option Q :=
  match v with VNum q => Some q | _ => None end.

(** pandas gives a column of numbers a numeric dtype ([int64] or
    [float64]), and the analysis below is numpy arithmetic on such
    columns.  A column that also holds a text, a boolean or a date, or
    an integer that does not fit 64 bits, is kept as Python objects, on
    which [np.polyfit] raises; the analysis of such columns is not part
    of this model.  The amounts of the model are at most 2^53 in
    absolute value: both dtypes hold such integers exactly, and the sum
    of nine of them stays within [int64]. *)
Definition numeric (v : value) : option Q :=
  match v with
  | VNum q => if Qle_bool (Qabs q) (inject_Z (2 ^ 53)) then Some q else None
  | _ => None
  end.

Record NumFrame : Type := mkNumFrame {
  months : list value;
  inflows : list Q;
  outflows : list Q;
  net_cf : list Q;
  closing : list Q
}.

Definition numeric_frame (df : DataFrame) : option NumFrame :=
  a ← mapM numeric (Total_Inflows df);
  b ← mapM numeric (Total_Outflows df);
  n ← mapM numeric (Net_Cash_Flow df);
  c ← mapM numeric (Closing_Balance df);
  Some (mkNumFrame (Month df) a b n c).

(** ** Descriptive metrics of the base case *)

(** Growth rate, comparing the first and the last month. *)
Definition growth_rate (base_inflows : list Q) : result npfloat :=
  first ← iloc base_inflows 0;
  if Qgtb first 0 then
    last ← iloc base_inflows (-1);
    first' ← iloc base_inflows 0;
    mret (np_mul (np_sub (np_truediv (Fin last) (Fin first')) (Fin 1)) (Fin 100))
  else mret (Fin 0).

(** [avg_outflows/avg_inflows*100], with no guard around it. *)
Definition expense_ratio (avg_outflows avg_inflows : npfloat) : npfloat :=
  np_mul (np_truediv avg_outflows avg_inflows) (Fin 100).

(** ** Scenario comparison and risk metrics *)

(** One column of the comparison table, in million IDR. *)
Definition scenario_column (df : NumFrame) : result (list npfloat) :=
  final ← iloc (closing df) (-1);
  mret [ np_truediv (Fin final) (Fin 1000000);
         np_truediv (Fin (series_sum (inflows df))) (Fin 1000000);
         np_truediv (Fin (series_sum (outflows df))) (Fin 1000000);
         np_truediv (Fin (series_sum (net_cf df))) (Fin 1000000);
         np_truediv (series_mean (net_cf df)) (Fin 1000000) ].

Record RiskMetrics : Type := mkRisk {
  best_case : Q;
  worst_case : Q;
  base_case : Q;
  risk_range : Q;
  scenario_spread : npfloat
}.

Definition risk_analysis (optimistic_df base_df pessimistic_df : NumFrame)
  : result RiskMetrics :=
  best ← iloc (closing optimistic_df) (-1);
  worst ← iloc (closing pessimistic_df) (-1);
  base ← iloc (closing base_df) (-1);
  let range := (best - worst)%Q in
  mret (mkRisk best worst base range
          (np_mul (np_truediv (Fin range) (Fin base)) (Fin 100))).

(** ** Correlation of inflows and outflows, on binary64 columns *)

(** Which branch the correlation block takes is decided by
    [std() > 0], a comparison of binary64 numbers.  The columns are
    here what pandas holds: arrays of [float64]. *)
Module Binary64.

(** [float(n)] *)
Definition of_nat (n : nat) : float := PrimFloat.of_uint63 (Uint63.of_Z (Z.of_nat n)).

(** numpy's sum of 8 to 128 items: eight running sums over the blocks of
    eight items, added pairwise, and then the remaining items in order. *)
Definition block_sum (a : list float) : float :=
  let blocks := (length a / 8)%nat in
  let r := foldl (λ r k, zip_with PrimFloat.add r (take 8 (drop (8 * k) a)))
                 (take 8 a) (seq 1 (blocks - 1)) in
  match r with
  | [r0; r1; r2; r3; r4; r5; r6; r7] =>
      foldl PrimFloat.add (((r0 + r1) + (r2 + r3)) + ((r4 + r5) + (r6 + r7)))%float
            (drop (8 * blocks) a)
  | _ => 0%float
  end.

(** numpy's pairwise summation: fewer than 8 items are added in order,
    more than 128 are split in two.  (The sign of a zero sum is not
    looked at by [> 0].) *)
Fixpoint pairwise_sum (fuel : nat) (a : list float) : float :=
  let n := length a in
  if (n <? 8)%nat then foldl PrimFloat.add 0%float a
  else if (n <=? 128)%nat then block_sum a
  else match fuel with
       | O => block_sum a
       | S fuel' =>
           let n2 := (n / 2 - (n / 2) mod 8)%nat in
           (pairwise_sum fuel' (take n2 a) + pairwise_sum fuel' (drop n2 a))%float
       end.

(** [values.sum()] *)
Definition np_sum (a : list float) : float := pairwise_sum (length a) a.

(** [s.mean()] *)
Definition series_mean (s : list float) : float := (np_sum s / of_nat (length s))%float.

(** [s.var()] as pandas computes it, in two passes: the mean, then the
    sum of the squared deviations over [count - 1]; [nan] for fewer than
    two items. *)
Definition series_var (s : list float) : float :=
  if (length s <=? 1)%nat then nan
  else
    let count := of_nat (length s) in
    let d := (count - 1)%float in
    let avg := (np_sum s / count)%float in
    let sqr := (λ x, ((avg - x) * (avg - x))%float) <$> s in
    (np_sum sqr / d)%float.

(** [s.std()] *)
Definition series_std (s : list float) : float := PrimFloat.sqrt (series_var s).

(** [s.std() > 0] *)
Definition std_positive (s : list float) : bool := (0 <? series_std s)%float.

Inductive strength : Type := Strong | Moderate | Weak.

(** What the correlation block reports: the coefficient with its
    reading, or that it cannot be calculated. *)
Inductive correlation_report : Type :=
  | Correlation (r : float) (s : strength)
  | CannotCalculate.

Section Correlation.

(** [xs.corr(ys)], numpy's [corrcoef].  Its sums go through the linear
    algebra library, in an order that is not numpy's to fix; the
    coefficient is a parameter of the block. *)
Variable corr : list float → list float → float.

(** Lines 234-244; the thresholds are the binary64 numbers that the
    literals [0.8] and [0.5] denote. *)
Definition correlation (base_inflows base_outflows : list float) : correlation_report :=
  if std_positive base_inflows && std_positive base_outflows then
    let r := corr base_inflows base_outflows in
    Correlation r (if (0x1.999999999999ap-1 <? r)%float then Strong
                   else if (0.5 <? r)%float then Moderate
                   else Weak)
  else CannotCalculate.

End Correlation.

End Binary64.

(** ** Month-over-month growth of the base closing balance *)

Definition base_growth (base_closing : list Q) : result (list npfloat) :=
  mapM (λ i : Z,
    if 0 <? i then
      prev ← iloc base_closing (i - 1);
      if Qgtb prev 0 then
        cur ← iloc base_closing i;
        prev' ← iloc base_closing (i - 1);
        mret (np_mul (np_sub (np_truediv (Fin cur) (Fin prev')) (Fin 1)) (Fin 100))
      else mret (Fin 0)
    else mret (Fin 0))
  (py_range 0 (Z.of_nat (length base_closing))).

(** ** The run *)

Inductive be_field : Type :=
  BE_Revenue | BE_Transactions | Current_Revenue | Safety_Margin.

Inductive be_status : Type := AMAN | CUKUP_AMAN | PERLU_PERHATIAN.

(** The rows of [analysis_summary.csv] (the volatility row, a square
    root, is left out). *)
Record summary_df : Type := mkSummary {
  Avg_Monthly_Revenue : npfloat;
  Avg_Monthly_Expenses : npfloat;
  Avg_Net_Cash_Flow : npfloat;
  Revenue_Growth_Rate : npfloat;
  Expense_Ratio : npfloat;
  Final_Balance_Base : Q;
  Final_Balance_Best : Q;
  Final_Balance_Worst : Q;
  Risk_Range : Q
}.

(** The columns of [scenario_comparison.csv]. *)
Record combined_df : Type := mkCombined {
  Month_col : list value;
  Base_Inflows : list Q;
  Base_Outflows : list Q;
  Base_NetCF : list Q;
  Base_Balance : list Q;
  Opt_Balance : list Q;
  Pes_Balance : list Q
}.

(** What a run leaves behind, in order: the sections of the console
    report and the files written.  The summary statistics, the
    volatilities, the correlation and the trend are recorded as printed
    sections, without their figures, which are the binary64 results of
    [describe()], [std()], [corr()] and [np.polyfit]. *)
Inductive event : Type :=
  | EFileNotFound
  | ELoading
  | EExtracted (periods : nat) (first_month last_month : value)
  | EExtractError (e : exn)
  | ESummaryStatistics
  | EKeyMetrics (avg_inflows avg_outflows avg_net_cf : npfloat)
                (total_inflows total_outflows : Q)
                (growth expense : npfloat)
  | EComparison (optimistic base pessimistic : list npfloat)
  | ERisk (r : RiskMetrics)
  | EVolatility
  | ECorrelation
  | ETrend
  | EBreakEvenHeader
  | EBreakEvenLine (f : be_field) (shown : value)
  | EBreakEvenStatus (s : be_status)
  | EBreakEvenUnavailable (e : exn)
  | EDashboardSaved (growth : list npfloat)
  | EVizError
  | ESummaryExported (s : summary_df)
  | EScenarioExported (c : combined_df)
  | EExportError (e : exn)
  | EComplete
  | ETraceback (e : exn).

(** What the run depends on besides the script: the workbook that the
    input file loads to ([None] when the file is not there), whether
    matplotlib draws and saves the dashboard of this workbook (which
    depends on the disk and on the figures drawn), and whether each of
    the two [to_csv] calls succeeds (disk, permissions). *)
Record env : Type := mkEnv {
  excel_file : option workbook;
  savefig_ok : bool;
  summary_to_csv_ok : bool;
  scenario_to_csv_ok : bool
}.

(** The module-level state of the script: the loaded workbook and what
    has been written so far. *)
Record state : Type := mkState {
  wb : workbook;
  out : list event
}.

Definition print (ev : event) : M state () := λ st,
  (Ok (), mkState (wb st) (out st ++ [ev])).

Definition on_wb {A} (body : M workbook A) : M state A := λ st,
  let '(r, wb') := body (wb st) in (r, mkState wb' (out st)).

Definition raise {S A} (e : exn) : M S A := lift (Raise e).

(** [exit(n)] raises [SystemExit], which [except Exception] lets through. *)
Definition exit {A} (n : Z) : M state A := raise (SystemExit n).

Definition is_Exception (e : exn) : bool :=
  match e with SystemExit _ => false | _ => true end.

(** [try: body / except Exception as e: handler(e)].  What [body] did
    before it raised stays done. *)
Definition try_except {S A} (body : M S A) (handler : exn → M S A) : M S A := λ s,
  match body s with
  | (Raise e, s') => if is_Exception e then handler e s' else (Raise e, s')
  | r => r
  end.

(** Lines 119-131: the three scenarios, or exit status 1. *)
Definition extract_all : M state (DataFrame * DataFrame * DataFrame) :=
  try_except (
    base_df ← on_wb (extract_scenario_data "Skenario Base");
    optimistic_df ← on_wb (extract_scenario_data "Skenario Optimistis");
    pessimistic_df ← on_wb (extract_scenario_data "Skenario Pesimistis");
    first ← lift (iloc (Month base_df) 0);
    last ← lift (iloc (Month base_df) (-1));
    print (EExtracted (df_len base_df) first last);;
    mret (base_df, optimistic_df, pessimistic_df))
  (λ e, print (EExtractError e);; exit 1).

(** Lines 133-164: summary statistics and key metrics of the base case.
    [describe()] does not raise on numeric columns. *)
Definition descriptive_statistics (base_df : NumFrame)
  : M state (npfloat * npfloat * npfloat * npfloat * npfloat) :=
  print ESummaryStatistics;;
  let avg_inflows := series_mean (inflows base_df) in
  let avg_outflows := series_mean (outflows base_df) in
  let avg_net_cf := series_mean (net_cf base_df) in
  let total_inflows := series_sum (inflows base_df) in
  let total_outflows := series_sum (outflows base_df) in
  growth ← lift (growth_rate (inflows base_df));
  print (EKeyMetrics avg_inflows avg_outflows avg_net_cf total_inflows total_outflows
           growth (expense_ratio avg_outflows avg_inflows));;
  mret (avg_inflows, avg_outflows, avg_net_cf, growth,
        expense_ratio avg_outflows avg_inflows).

(** Lines 166-216: comparison table and risk metrics. *)
Definition scenario_comparison (optimistic_df base_df pessimistic_df : NumFrame)
  : M state RiskMetrics :=
  o ← lift (scenario_column optimistic_df);
  b ← lift (scenario_column base_df);
  p ← lift (scenario_column pessimistic_df);
  print (EComparison o b p);;
  r ← lift (risk_analysis optimistic_df base_df pessimistic_df);
  print (ERisk r);;
  mret r.

(** [np.polyfit(x, y, 1)] on numeric arrays: numpy refuses an empty [x]
    and arrays of different lengths, and fits otherwise. *)
Definition np_polyfit (x : list Q) (y : list Q) : result () :=
  if (length x =? 0)%nat || negb (length x =? length y)%nat then Raise TypeError
  else Ok ().

(** [np.arange(n)] *)
Definition arange (n : nat) : list Q := (λ i : nat, inject_Z (Z.of_nat i)) <$> seq 0 n.

(** Lines 218-254: volatility, correlation and trend.  [std()] and
    [corr()] do not raise on numeric columns, and either branch of the
    correlation block prints its line; the two [np.polyfit] calls are
    under no [try]. *)
Definition statistical_analysis (base_df : NumFrame) : M state () :=
  print EVolatility;;
  print ECorrelation;;
  let months_numeric := arange (length (months base_df)) in
  if (1 <? length months_numeric)%nat then
    lift (np_polyfit months_numeric (inflows base_df));;
    lift (np_polyfit months_numeric (outflows base_df));;
    print ETrend
  else mret ().

(** Lines 268-284: the break-even report, once the four cells are read. *)
Definition break_even_report
    (be_revenue be_transactions current_revenue safety_margin : value) : M state () :=
  print EBreakEvenHeader;;
  x ← lift (py_truediv be_revenue 1000000);
  print (EBreakEvenLine BE_Revenue (VNum x));;
  x ← lift (format_f be_transactions);
  print (EBreakEvenLine BE_Transactions x);;
  x ← lift (py_truediv current_revenue 1000000);
  print (EBreakEvenLine Current_Revenue (VNum x));;
  y ← lift (py_mul safety_margin 100);
  x ← lift (format_f y);
  print (EBreakEvenLine Safety_Margin x);;
  high ← lift (py_gt safety_margin (15 # 100));
  status ← (if high : bool then mret AMAN
            else mid ← lift (py_gt safety_margin (8 # 100));
                 mret (if mid : bool then CUKUP_AMAN else PERLU_PERHATIAN));
  print (EBreakEvenStatus status).

(** Lines 256-286: the break-even block. *)
Definition break_even_analysis : M state () :=
  try_except (
    '(be_revenue, be_transactions, current_revenue, safety_margin) ←
      on_wb (in_sheet "Analisis Break-Even" (
        be_revenue ← ws_cell 11 2;
        be_transactions ← ws_cell 10 2;
        current_revenue ← ws_cell 14 2;
        safety_margin ← ws_cell 18 2;
        mret (py_or be_revenue (VNum 0), py_or be_transactions (VNum 0),
              py_or current_revenue (VNum 0), py_or safety_margin (VNum 0))));
    break_even_report be_revenue be_transactions current_revenue safety_margin)
  (λ e, print (EBreakEvenUnavailable e)).

(** Lines 288-371: the dashboard.  The growth sequence is computed on the
    way to [savefig].  Whatever matplotlib raises while it draws or saves
    is an [Exception], which the handler reports; the log does not keep
    which one. *)
Definition visualizations (e : env) (base_df : NumFrame) : M state () :=
  try_except (
    growth ← lift (base_growth (closing base_df));
    if savefig_ok e then print (EDashboardSaved growth) else raise OSError)
  (λ _, print EVizError).

(** Lines 373-427: the two tables, written one after the other. *)
Definition export_summary (e : env) (s : summary_df) (c : combined_df) : M state () :=
  try_except (
    (if summary_to_csv_ok e then print (ESummaryExported s) else raise OSError);;
    (if scenario_to_csv_ok e then print (EScenarioExported c) else raise OSError))
  (λ ex, print (EExportError ex)).

(** Lines 133-439, on numeric frames. *)
Definition analysis (e : env) (base_df optimistic_df pessimistic_df : NumFrame) : M state () :=
  '(avg_inflows, avg_outflows, avg_net_cf, growth, expense) ← descriptive_statistics base_df;
  r ← scenario_comparison optimistic_df base_df pessimistic_df;
  statistical_analysis base_df;;
  break_even_analysis;;
  visualizations e base_df;;
  export_summary e
    (mkSummary avg_inflows avg_outflows avg_net_cf growth expense
       (base_case r) (best_case r) (worst_case r) (risk_range r))
    (mkCombined (months base_df) (inflows base_df) (outflows base_df) (net_cf base_df)
       (closing base_df) (closing optimistic_df) (closing pessimistic_df));;
  print EComplete.

Record outcome : Type := mkOutcome {
  exit_status : Z;
  log : list event
}.

(** How the process ends: status 0 at the end of the script, the status
    given to [exit], or a traceback and status 1. *)
Definition finish {A} (r : result A * state) : outcome :=
  match r with
  | (Ok _, st) => mkOutcome 0 (out st)
  | (Raise (SystemExit n), st) => mkOutcome n (out st)
  | (Raise e, st) => mkOutcome 1 (out st ++ [ETraceback e])
  end.

(** The whole script.  [None]: an amount column is not numeric, which
    this model does not cover. *)
Definition run (e : env) : option outcome :=
  match excel_file e with
  | None => Some (mkOutcome 1 [EFileNotFound])
  | Some wb0 =>
    match extract_all (mkState wb0 [ELoading]) with
    | (Ok (base_df, optimistic_df, pessimistic_df), st) =>
      b ← numeric_frame base_df;
      o ← numeric_frame optimistic_df;
      p ← numeric_frame pessimistic_df;
      Some (finish (analysis e b o p st))
    | (Raise ex, st) => Some (finish (Raise ex : result (), st))
    end
  end.

(** ** Specification-side definitions *)

(** A cell is blank when the sheet does not hold it or holds it empty. *)
Definition blank (ws : worksheet) (row col : Z) : Prop :=
  ws !! (row, col) = None ∨ ws !! (row, col) = Some VNone.

(** Two sheets that show the same value at every coordinate. *)
Definition same_cells (ws ws' : worksheet) : Prop :=
  ∀ row col, cell_value ws' row col = cell_value ws row col.

(** Two workbooks with the same sheets, each showing the same cells. *)
Definition same_book (book book' : workbook) : Prop :=
  ∀ sheet_name,
    match book !! sheet_name, book' !! sheet_name with
    | Some ws, Some ws' => same_cells ws ws'
    | None, None => True
    | _, _ => False
    end.

(** The workbook after the sheets [names] have been extracted in turn. *)
Definition read_all (names : list string) (book : workbook) : workbook :=
  foldl (λ b sheet_name, (extract_scenario_data sheet_name b).2) book names.

(** The frame the six loops build, read off the sheet without updating it. *)
Definition frame_of (ws : worksheet) : DataFrame :=
  let amounts row := (λ col, py_or (cell_value ws row col) (VNum 0)) <$> py_range 2 11 in
  mkDataFrame
    ((λ col, let month_val := cell_value ws 4 col in
             if truthy month_val then month_val else month_label col) <$> py_range 2 11)
    (amounts 5) (amounts 13) (amounts 25) (amounts 27) (amounts 29).






(** The events that carry a result of the analysis: a report section or a
    written file. *)
Definition is_result (ev : event) : bool :=
  match ev with
  | ESummaryStatistics | EKeyMetrics _ _ _ _ _ _ _ | EComparison _ _ _ | ERisk _
  | EVolatility | ECorrelation | ETrend
  | EBreakEvenHeader | EBreakEvenLine _ _ | EBreakEvenStatus _
  | EDashboardSaved _ | ESummaryExported _ | EScenarioExported _ | EComplete => true
  | _ => false
  end.

(** The key metrics of a base frame whose growth rate is [growth]. *)
Definition key_metrics (base_df : NumFrame) (growth : npfloat) : event :=
  EKeyMetrics (series_mean (inflows base_df)) (series_mean (outflows base_df))
    (series_mean (net_cf base_df))
    (series_sum (inflows base_df)) (series_sum (outflows base_df))
    growth
    (expense_ratio (series_mean (outflows base_df)) (series_mean (inflows base_df))).

(** The report of the analysis up to the break-even block. *)
Definition report (base_df : NumFrame) (growth : npfloat)
    (optimistic base pessimistic : list npfloat) (r : RiskMetrics) : list event :=
  [ESummaryStatistics; key_metrics base_df growth; EComparison optimistic base pessimistic;
   ERisk r; EVolatility; ECorrelation; ETrend].

(** The summary table of a base frame, its growth rate and the risk
    metrics, and the table of the three scenarios. *)
Definition summary_of (base_df : NumFrame) (growth : npfloat) (r : RiskMetrics) : summary_df :=
  mkSummary (series_mean (inflows base_df)) (series_mean (outflows base_df))
    (series_mean (net_cf base_df)) growth
    (expense_ratio (series_mean (outflows base_df)) (series_mean (inflows base_df)))
    (base_case r) (best_case r) (worst_case r) (risk_range r).

Definition combined_of (base_df optimistic_df pessimistic_df : NumFrame) : combined_df :=
  mkCombined (months base_df) (inflows base_df) (outflows base_df) (net_cf base_df)
    (closing base_df) (closing optimistic_df) (closing pessimistic_df).

(** A frame of nine periods. *)
Definition nine_periods (df : NumFrame) : Prop :=
  length (months df) = 9%nat ∧ length (inflows df) = 9%nat ∧ length (outflows df) = 9%nat
  ∧ length (net_cf df) = 9%nat ∧ length (closing df) = 9%nat.

(** ** Sample data *)

(** A row of a sheet, from column B on. *)
Definition put_row (row : Z) (vs : list value) (ws : worksheet) : worksheet :=
  foldr (λ '(i, v) acc, <[(row, 2 + Z.of_nat i) := v]> acc) ws (imap (λ i v, (i, v)) vs).

Definition amounts (l : list Z) : list value := (λ z, VNum (inject_Z z)) <$> l.

(** A scenario sheet with two blank month headers and a blank opening row. *)
Definition sample_sheet (inflow outflow net balance : list Z) : worksheet :=
  put_row 4 [VStr "Jan"; VNone; VStr "Mar"]
    (put_row 13 (amounts inflow)
      (put_row 25 (amounts outflow)
        (put_row 27 (amounts net)
          (put_row 29 (amounts balance) ∅)))).

Definition sample_base : worksheet :=
  sample_sheet [10; 12; 14; 16; 18; 20; 22; 24; 26] [8; 9; 9; 10; 12; 11; 13; 14; 15]
               [2; 3; 5; 6; 6; 9; 9; 10; 11] [100; 110; 0; 90; 96; 105; 114; 124; 300].

Definition sample_optimistic : worksheet :=
  sample_sheet [12; 15; 18; 21; 24; 27; 30; 33; 36] [8; 9; 9; 10; 12; 11; 13; 14; 15]
               [4; 6; 9; 11; 12; 16; 17; 19; 21] [104; 110; 119; 130; 142; 158; 175; 194; 500].

Definition sample_pessimistic : worksheet :=
  sample_sheet [9; 9; 10; 10; 11; 11; 12; 12; 13] [8; 9; 9; 10; 12; 11; 13; 14; 15]
               [1; 0; 1; 0; -1; 0; -1; -2; -2] [101; 101; 102; 102; 101; 101; 100; 98; 100].

(** A workbook with the three scenario sheets and no break-even sheet. *)
Definition sample_workbook : workbook :=
  <["Skenario Base" := sample_base]>
    (<["Skenario Optimistis" := sample_optimistic]>
      (<["Skenario Pesimistis" := sample_pessimistic]> ∅)).

(** The same with a break-even sheet whose safety margin is a text. *)
Definition sample_break_even_text : worksheet :=
  <[(11, 2) := VNum 40000000]> (<[(10, 2) := VNum 1600]>
    (<[(14, 2) := VNum 50000000]> (<[(18, 2) := VStr "n/a"]> ∅))).

Definition sample_workbook_text : workbook :=
  <["Analisis Break-Even" := sample_break_even_text]> sample_workbook.

(** Only the base and the optimistic sheets. *)
Definition sample_workbook_two : workbook :=
  <["Skenario Base" := sample_base]> (<["Skenario Optimistis" := sample_optimistic]> ∅).



(** The sample figures are a few units, far from the billions the
    dashboard is scaled for: it is taken not to be drawn.  Both tables
    are written. *)
Definition sample_env (book : workbook) : env := mkEnv (Some book) false true true.

(** A workbook with figures of the size of the cafe's: the sample
    amounts in millions, no break-even sheet. *)
Definition millions (ws : worksheet) : worksheet :=
  (λ v, match v with VNum q => VNum (q * 1000000) | _ => v end) <$> ws.

Definition cafe_workbook : workbook :=
  <["Skenario Base" := millions sample_base]>
    (<["Skenario Optimistis" := millions sample_optimistic]>
      (<["Skenario Pesimistis" := millions sample_pessimistic]> ∅)).

(** The cafe's workbook where the dashboard and both tables are written. *)
Definition cafe_env (book : workbook) : env := mkEnv (Some book) true true true.

(** ** Further specification-side definitions *)

(** The events of the break-even block. *)
Definition is_break_even_event (ev : event) : bool :=
  match ev with
  | EBreakEvenHeader | EBreakEvenLine _ _ | EBreakEvenStatus _
  | EBreakEvenUnavailable _ => true
  | _ => false
  end.

(** The verdicts of the break-even block: a status, or unavailable. *)
Definition is_break_even_verdict (ev : event) : bool :=
  match ev with
  | EBreakEvenStatus _ | EBreakEvenUnavailable _ => true
  | _ => false
  end.

(** The events of the dashboard and of the export: a written file or the
    reported failure. *)
Definition is_output (ev : event) : bool :=
  match ev with
  | EDashboardSaved _ | EVizError
  | ESummaryExported _ | EScenarioExported _ | EExportError _ => true
  | _ => false
  end.

Definition outputs (l : list event) : list event := List.filter is_output l.

(** The cells the extraction asks for. *)
Definition extracted_cell (row col : Z) : Prop :=
  row ∈ [4; 5; 13; 25; 27; 29] ∧ 2 ≤ col ≤ 10.

(** The cell holds the amount [q], or is falsy and [q] is 0. *)
Definition reads_as (v : value) (q : Q) : Prop := number (py_or v (VNum 0)) = Some q.

(** What the dashboard block and the export block leave in the log. *)
Definition dashboard_event (e : env) (growth : list npfloat) : event :=
  if savefig_ok e then EDashboardSaved growth else EVizError.

Definition export_events (e : env) (s : summary_df) (c : combined_df) : list event :=
  if summary_to_csv_ok e then
    ESummaryExported s
    :: (if scenario_to_csv_ok e then [EScenarioExported c] else [EExportError OSError])
  else [EExportError OSError].

(** * Properties *)

(** ** Running monadic code *)

Lemma M_bind_run {S A B} (m : M S A) (f : A → M S B) (s : S) :
  (m ≫= f) s = match m s with
               | (Ok a, s') => f a s'
               | (Raise e, s') => (Raise e, s')
               end.
Proof. reflexivity. Qed.

Lemma M_ret_run {S A} (a : A) (s : S) : (mret a : M S A) s = (Ok a, s).
Proof. reflexivity. Qed.

(** ** Reading a sheet *)

Section Reading.

Implicit Types (ws : worksheet) (row col : Z).

Lemma cell_value_touch ws row col r c :
  cell_value (touch row col ws) r c = cell_value ws r c.
Proof.
  unfold touch, cell_value.
  destruct (ws !! (row, col)) eqn:Hheld; [reflexivity|].
  destruct (decide ((row, col) = (r, c))) as [<-|Hne].
  - by rewrite lookup_insert_eq, Hheld.
  - by rewrite lookup_insert_ne.
Qed.

Lemma same_cells_refl ws : same_cells ws ws.
Proof. by intros r c. Qed.

Lemma same_cells_trans ws1 ws2 ws3 :
  same_cells ws1 ws2 → same_cells ws2 ws3 → same_cells ws1 ws3.
Proof. intros H12 H23 r c. by rewrite H23, H12. Qed.

Lemma same_cells_touch ws row col : same_cells ws (touch row col ws).
Proof. intros r c. apply cell_value_touch. Qed.

Lemma ws_cell_ok ws row col :
  1 ≤ row → 1 ≤ col →
  ws_cell row col ws = (Ok (cell_value ws row col), touch row col ws).
Proof.
  intros Hr Hc. unfold ws_cell.
  destruct (Z.ltb_spec row 1), (Z.ltb_spec col 1); simpl; try lia. reflexivity.
Qed.

(** One loop of the extraction: the row is read in column order, and
    the sheet still shows the same cells afterwards. *)
Lemma read_row ws row (f : Z → value → value) (cols : list Z) :
  1 ≤ row → Forall (λ col, 1 ≤ col) cols →
  ∃ ws', for_each cols (λ col, v ← ws_cell row col; mret (f col v)) ws
           = (Ok ((λ col, f col (cell_value ws row col)) <$> cols), ws')
         ∧ same_cells ws ws'.
Proof.
  intros Hrow Hcols. revert ws.
  induction Hcols as [|col cols Hcol _ IH]; intros ws.
  - exists ws. split; [reflexivity | apply same_cells_refl].
  - destruct (IH (touch row col ws)) as (ws' & Hrun & Hsame).
    exists ws'. split.
    + unfold for_each in *. simpl.
      rewrite !M_bind_run, ws_cell_ok by assumption.
      rewrite M_ret_run, M_bind_run, Hrun, M_ret_run.
      do 3 f_equal.
      apply list_fmap_ext. intros _ c _. by rewrite cell_value_touch.
    + eapply same_cells_trans; [apply same_cells_touch | exact Hsame].
Qed.

End Reading.

(** ** Extraction *)

Lemma columns_B_J : py_range 2 11 = [2; 3; 4; 5; 6; 7; 8; 9; 10].
Proof. reflexivity. Qed.

Lemma columns_positive : Forall (λ col, 1 ≤ col) (py_range 2 11).
Proof. rewrite columns_B_J. repeat constructor; lia. Qed.

Lemma frame_of_same_cells (ws ws' : worksheet) :
  same_cells ws ws' → frame_of ws' = frame_of ws.
Proof.
  intros Hsame. unfold frame_of.
  f_equal; apply list_fmap_ext; intros _ col _; by rewrite Hsame.
Qed.

(** Reading an amount row of a sheet that shows the cells of [ws]. *)
Lemma read_amounts (ws w : worksheet) (row : Z) :
  1 ≤ row → same_cells ws w →
  ∃ w', for_each (py_range 2 11) (λ col, v ← ws_cell row col; mret (py_or v (VNum 0))) w
          = (Ok ((λ col, py_or (cell_value ws row col) (VNum 0)) <$> py_range 2 11), w')
        ∧ same_cells ws w'.
Proof.
  intros Hrow Hsame.
  destruct (read_row w row (λ _ v, py_or v (VNum 0)) (py_range 2 11) Hrow columns_positive)
    as (w' & Hrun & Hw').
  exists w'. split.
  - rewrite Hrun. do 2 f_equal. apply list_fmap_ext. intros _ col _. by rewrite Hsame.
  - by eapply same_cells_trans.
Qed.

Lemma read_months (ws : worksheet) :
  ∃ w', for_each (py_range 2 11) (λ col,
          month_val ← ws_cell 4 col;
          mret (if truthy month_val then month_val else month_label col)) ws
          = (Ok (Month (frame_of ws)), w')
        ∧ same_cells ws w'.
Proof.
  apply (read_row ws 4 (λ col v, if truthy v then v else month_label col));
    [lia | apply columns_positive].
Qed.

(** On a sheet of the workbook the extraction returns [frame_of] that
    sheet, and leaves a sheet that shows the same cells. *)
Lemma extract_present (book : workbook) (sheet_name : string) (ws : worksheet) :
  book !! sheet_name = Some ws →
  ∃ ws', extract_scenario_data sheet_name book
           = (Ok (frame_of ws), <[sheet_name := ws']> book)
         ∧ same_cells ws ws'.
Proof.
  intros Hsheet. unfold extract_scenario_data, in_sheet. rewrite Hsheet.
  destruct (read_months ws) as (w1 & H1 & S1).
  destruct (read_amounts ws w1 5 ltac:(lia) S1) as (w2 & H2 & S2).
  destruct (read_amounts ws w2 13 ltac:(lia) S2) as (w3 & H3 & S3).
  destruct (read_amounts ws w3 25 ltac:(lia) S3) as (w4 & H4 & S4).
  destruct (read_amounts ws w4 27 ltac:(lia) S4) as (w5 & H5 & S5).
  destruct (read_amounts ws w5 29 ltac:(lia) S5) as (w6 & H6 & S6).
  exists w6. split; [|exact S6].
  rewrite M_bind_run, H1, M_bind_run, H2, M_bind_run, H3,
    M_bind_run, H4, M_bind_run, H5, M_bind_run, H6.
  reflexivity.
Qed.

Lemma extract_missing (book : workbook) (sheet_name : string) :
  book !! sheet_name = None →
  extract_scenario_data sheet_name book = (Raise (KeyError sheet_name), book).
Proof. intros Hsheet. unfold extract_scenario_data, in_sheet. by rewrite Hsheet. Qed.

Lemma blank_cell_value (ws : worksheet) (row col : Z) :
  blank ws row col → cell_value ws row col = VNone.
Proof. unfold cell_value. by intros [-> | ->]. Qed.

Lemma truthy_label (v : value) (col : Z) :
  truthy (if truthy v then v else month_label col) = true.
Proof.
  destruct (truthy v) eqn:Hv; [exact Hv|].
  unfold month_label. reflexivity.
Qed.

Lemma truthy_not_empty (v : value) : truthy v = true → v ≠ VNone ∧ v ≠ VStr EmptyString.
Proof. intros Hv. split; intros ->; discriminate. Qed.

Lemma py_or_blank (ws : worksheet) (row col : Z) :
  blank ws row col → py_or (cell_value ws row col) (VNum 0) = VNum 0.
Proof. intros Hb. by rewrite (blank_cell_value _ _ _ Hb). Qed.

Lemma label_blank (ws : worksheet) (col : Z) :
  blank ws 4 col →
  (let month_val := cell_value ws 4 col in
   if truthy month_val then month_val else month_label col)
  = VStr ("Month " +:+ pretty (col - 1)).
Proof. intros Hb. simpl. by rewrite (blank_cell_value _ _ _ Hb). Qed.

(** C1.  On a sheet that the workbook has, [extract_scenario_data]
    returns a frame of exactly 9 records, one per column 2 to 10.  In
    record [i] (column [2 + i]) a blank cell of an amount row is read as
    the number 0, a blank cell of the header row becomes the label
    ["Month {col-1}"], and the period label is never empty: it is truthy,
    hence neither [None] nor the empty text. *)
Theorem extract_scenario_data_series
    (book : workbook) (sheet_name : string) (ws : worksheet) :
  book !! sheet_name = Some ws →
  ∃ df book',
    extract_scenario_data sheet_name book = (Ok df, book')
    ∧ df_len df = 9%nat
    ∧ length (records df) = 9%nat
    ∧ ∀ i : nat, (i < 9)%nat →
        let col := 2 + Z.of_nat i in
        ∃ rec, records df !! i = Some rec
          ∧ truthy (period_label rec) = true
          ∧ period_label rec ≠ VNone
          ∧ period_label rec ≠ VStr EmptyString
          ∧ (blank ws 4 col → period_label rec = VStr ("Month " +:+ pretty (col - 1)))
          ∧ (blank ws 5 col → opening_balance rec = VNum 0)
          ∧ (blank ws 13 col → total_inflows rec = VNum 0)
          ∧ (blank ws 25 col → total_outflows rec = VNum 0)
          ∧ (blank ws 27 col → net_cash_flow rec = VNum 0)
          ∧ (blank ws 29 col → closing_balance rec = VNum 0).
Proof.
  intros Hsheet.
  destruct (extract_present book sheet_name ws Hsheet) as (ws' & Hrun & _).
  exists (frame_of ws), (<[sheet_name := ws']> book).
  split; [exact Hrun|].
  unfold records, df_len, frame_of. rewrite columns_B_J.
  split; [reflexivity|]. split; [reflexivity|].
  intros i Hi. cbv zeta.
  do 9 (destruct i as [|i];
    [ eexists; split; [reflexivity|]; simpl;
      split; [apply truthy_label|];
      split; [apply truthy_not_empty, truthy_label|];
      split; [apply truthy_not_empty, truthy_label|];
      split; [apply label_blank|];
      repeat split; apply py_or_blank
    | ]).
  lia.
Qed.

Lemma extract_scenario_data_series_witness :
  ∃ df book',
    extract_scenario_data "Skenario Base" sample_workbook = (Ok df, book')
    ∧ df_len df = 9%nat
    ∧ length (records df) = 9%nat
    ∧ ∀ i : nat, (i < 9)%nat →
        let col := 2 + Z.of_nat i in
        ∃ rec, records df !! i = Some rec
          ∧ truthy (period_label rec) = true
          ∧ period_label rec ≠ VNone
          ∧ period_label rec ≠ VStr EmptyString
          ∧ (blank sample_base 4 col → period_label rec = VStr ("Month " +:+ pretty (col - 1)))
          ∧ (blank sample_base 5 col → opening_balance rec = VNum 0)
          ∧ (blank sample_base 13 col → total_inflows rec = VNum 0)
          ∧ (blank sample_base 25 col → total_outflows rec = VNum 0)
          ∧ (blank sample_base 27 col → net_cash_flow rec = VNum 0)
          ∧ (blank sample_base 29 col → closing_balance rec = VNum 0).
Proof.
  apply (extract_scenario_data_series sample_workbook "Skenario Base" sample_base).
  reflexivity.
Defined.

(** ** Extraction is a read *)

Lemma same_book_refl (book : workbook) : same_book book book.
Proof. intros n. destruct (book !! n); [apply same_cells_refl | exact I]. Qed.

Lemma same_book_trans (b1 b2 b3 : workbook) :
  same_book b1 b2 → same_book b2 b3 → same_book b1 b3.
Proof.
  intros H12 H23 n. specialize (H12 n). specialize (H23 n).
  destruct (b1 !! n), (b2 !! n), (b3 !! n); try done.
  by eapply same_cells_trans.
Qed.

(** The extraction leaves a workbook that shows what it showed. *)
Lemma extract_keeps_book (book : workbook) (sheet_name : string) :
  same_book book (extract_scenario_data sheet_name book).2.
Proof.
  destruct (book !! sheet_name) as [ws|] eqn:Hsheet.
  - destruct (extract_present book sheet_name ws Hsheet) as (ws' & -> & Hsame).
    intros n. simpl. destruct (decide (sheet_name = n)) as [<-|Hne].
    + by rewrite lookup_insert_eq, Hsheet.
    + rewrite lookup_insert_ne by done.
      destruct (book !! n); [apply same_cells_refl | exact I].
  - rewrite (extract_missing book sheet_name Hsheet). apply same_book_refl.
Qed.

(** Its result depends on the workbook through the cells shown only. *)
Lemma extract_same_book (book book' : workbook) (sheet_name : string) :
  same_book book book' →
  (extract_scenario_data sheet_name book').1 = (extract_scenario_data sheet_name book).1.
Proof.
  intros Hsame. specialize (Hsame sheet_name).
  destruct (book !! sheet_name) as [ws|] eqn:Hb, (book' !! sheet_name) as [ws'|] eqn:Hb';
    try done.
  - destruct (extract_present book sheet_name ws Hb) as (w & -> & _).
    destruct (extract_present book' sheet_name ws' Hb') as (w' & -> & _).
    simpl. f_equal. by apply frame_of_same_cells.
  - by rewrite (extract_missing _ _ Hb), (extract_missing _ _ Hb').
Qed.

Lemma read_all_keeps_book (names : list string) (book : workbook) :
  same_book book (read_all names book).
Proof.
  revert book. induction names as [|n names IH]; intros book.
  - apply same_book_refl.
  - simpl. eapply same_book_trans; [apply extract_keeps_book | apply IH].
Qed.

(** C9.  Extracting a sheet again, from the workbook as the first
    extraction left it, gives the same result as the first time: the
    same frame, field by field (or the same error); and so does an
    extraction after any other extractions. *)
Theorem extraction_is_deterministic (book : workbook) (sheet_name : string) :
  (extract_scenario_data sheet_name (extract_scenario_data sheet_name book).2).1
    = (extract_scenario_data sheet_name book).1
  ∧ ∀ names : list string,
      (extract_scenario_data sheet_name (read_all names book)).1
        = (extract_scenario_data sheet_name book).1.
Proof.
  split.
  - apply extract_same_book, extract_keeps_book.
  - intros names. apply extract_same_book, read_all_keeps_book.
Qed.

(** The first extraction does change the workbook: the cells it asked
    for are held afterwards. *)
Example extraction_updates_the_sheet :
  (extract_scenario_data "Skenario Base" sample_workbook).2 ≠ sample_workbook.
Proof.
  intros Heq.
  assert (Hcell : (extract_scenario_data "Skenario Base" sample_workbook).2
                    !! "Skenario Base" ≫= (.!! (5, 2)) = Some VNone)
    by (vm_compute; reflexivity).
  rewrite Heq in Hcell. vm_compute in Hcell. discriminate.
Qed.

(** ** Rational comparisons *)

Lemma Qgtb_true (a b : Q) : Qgtb a b = true ↔ (b < a)%Q.
Proof.
  unfold Qgtb. split.
  - destruct (a ?= b)%Q eqn:Hcmp; try discriminate. intros _. by apply Qgt_alt.
  - intros Hlt. apply Qgt_alt in Hlt. by rewrite Hlt.
Qed.

Lemma Qgtb_false (a b : Q) : Qgtb a b = false ↔ (a <= b)%Q.
Proof.
  rewrite <- not_true_iff_false, Qgtb_true. split; [apply Qnot_lt_le | apply Qle_not_lt].
Qed.

Lemma Qeq_bool_false (a b : Q) : ¬ (a == b)%Q → Qeq_bool a b = false.
Proof.
  intros Hne. destruct (Qeq_bool a b) eqn:Heq; [|reflexivity].
  apply Qeq_bool_iff in Heq. contradiction.
Qed.

Lemma Qeq_bool_true (a b : Q) : (a == b)%Q → Qeq_bool a b = true.
Proof. apply Qeq_bool_iff. Qed.

(** ** The growth rate of the inflows *)

Lemma growth_rate_positive (base_inflows : list Q) (first last : Q) :
  iloc base_inflows 0 = Ok first → iloc base_inflows (-1) = Ok last →
  (0 < first)%Q →
  growth_rate base_inflows = Ok (Fin ((last / first - 1) * 100)).
Proof.
  intros Hfirst Hlast Hpos. unfold growth_rate. rewrite Hfirst. simpl.
  rewrite (proj2 (Qgtb_true first 0) Hpos), Hlast. simpl.
  rewrite Qeq_bool_false; [reflexivity|]. intros Heq. rewrite Heq in Hpos. lra.
Qed.

Lemma growth_rate_guarded (base_inflows : list Q) (first : Q) :
  iloc base_inflows 0 = Ok first → (first <= 0)%Q →
  growth_rate base_inflows = Ok (Fin 0).
Proof.
  intros Hfirst Hle. unfold growth_rate. rewrite Hfirst. simpl.
  by rewrite (proj2 (Qgtb_false first 0) Hle).
Qed.

(** C2, as amended.  The growth rate of the inflow column is
    [(last/first - 1) * 100] whenever the first-period inflow is strictly
    positive, and exactly 0 when the first-period inflow is 0, whatever
    the later inflows are. *)
Theorem growth_rate_first_positive_or_zero (base_inflows : list Q) (first last : Q) :
  iloc base_inflows 0 = Ok first → iloc base_inflows (-1) = Ok last →
  ((0 < first)%Q →
     ∃ g, growth_rate base_inflows = Ok (Fin g) ∧ (g == (last / first - 1) * 100)%Q)
  ∧ ((first == 0)%Q → growth_rate base_inflows = Ok (Fin 0)).
Proof.
  intros Hfirst Hlast. split.
  - intros Hpos. eexists. split; [by apply growth_rate_positive | reflexivity].
  - intros Hzero. apply (growth_rate_guarded _ first Hfirst). rewrite Hzero. lra.
Qed.

Lemma growth_rate_first_positive_or_zero_witness :
  (∃ g, growth_rate [10; 12; 14; 16; 18; 20; 22; 24; 26]%Q = Ok (Fin g)
        ∧ (g == (26 / 10 - 1) * 100)%Q)
  ∧ growth_rate [0; 12; 14; 16; 18; 20; 22; 24; 26]%Q = Ok (Fin 0).
Proof.
  split.
  - apply (growth_rate_first_positive_or_zero
             [10; 12; 14; 16; 18; 20; 22; 24; 26]%Q 10%Q 26%Q);
      [reflexivity | reflexivity | reflexivity].
  - apply (growth_rate_first_positive_or_zero
             [0; 12; 14; 16; 18; 20; 22; 24; 26]%Q 0%Q 26%Q);
      [reflexivity | reflexivity | reflexivity].
Defined.

(** C2 as written fails on a negative first inflow: the first value is
    nonzero, the formula gives 100, and the script reports 0. *)
Lemma growth_rate_nonzero_first_counterexample :
  let base_inflows := [-10; 5; 5; 5; 5; 5; 5; 5; -20]%Q in
  iloc base_inflows 0 = Ok (-10)%Q
  ∧ iloc base_inflows (-1) = Ok (-20)%Q
  ∧ ¬ (-10 == 0)%Q
  ∧ growth_rate base_inflows = Ok (Fin 0)
  ∧ ((-20 / -10 - 1) * 100 == 100)%Q
  ∧ ¬ (∃ g, growth_rate base_inflows = Ok (Fin g) ∧ (g == (-20 / -10 - 1) * 100)%Q).
Proof.
  cbv zeta. repeat split; try reflexivity; try discriminate.
  intros (g & Hrun & Hg). vm_compute in Hrun. injection Hrun as <-. discriminate.
Qed.

(** C10.  When the first-period inflow is strictly negative the growth
    rate is 0, whatever the last inflow is: the zero branch is the branch
    of every first value less than or equal to 0. *)
Theorem growth_rate_negative_first (base_inflows : list Q) (first : Q) :
  iloc base_inflows 0 = Ok first →
  ((first < 0)%Q → growth_rate base_inflows = Ok (Fin 0))
  ∧ ((first <= 0)%Q → growth_rate base_inflows = Ok (Fin 0)).
Proof.
  intros Hfirst. split; intros Hneg.
  - apply (growth_rate_guarded _ first Hfirst). lra.
  - by apply (growth_rate_guarded _ first Hfirst).
Qed.

Lemma growth_rate_negative_first_witness :
  growth_rate [-10; 5; 5; 5; 5; 5; 5; 5; -20]%Q = Ok (Fin 0).
Proof.
  destruct (growth_rate_negative_first [-10; 5; 5; 5; 5; 5; 5; 5; -20]%Q (-10)%Q)
    as [Hneg _]; [reflexivity|].
  apply Hneg. reflexivity.
Defined.

(** ** Series positions and loops that may raise *)

Lemma iloc_lookup {A} (s : list A) (i : nat) (x : A) :
  s !! i = Some x → iloc s (Z.of_nat i) = Ok x.
Proof.
  intros Hx. pose proof (lookup_lt_Some _ _ _ Hx) as Hlt. unfold iloc.
  destruct (Z.ltb_spec (Z.of_nat i) 0); [lia|].
  destruct (Z.leb_spec 0 (Z.of_nat i)); [|lia].
  destruct (Z.ltb_spec (Z.of_nat i) (Z.of_nat (length s))); [|lia].
  simpl. by rewrite Nat2Z.id, Hx.
Qed.

Lemma iloc_last {A} (s : list A) (x : A) : iloc (s ++ [x]) (-1) = Ok x.
Proof.
  unfold iloc. rewrite length_app. simpl.
  destruct (Z.leb_spec 0 (Z.of_nat (length s + 1) + -1)); [|lia].
  destruct (Z.ltb_spec (Z.of_nat (length s + 1) + -1) (Z.of_nat (length s + 1))); [|lia].
  simpl. replace (Z.to_nat (Z.of_nat (length s + 1) + -1)) with (length s) by lia.
  by rewrite list_lookup_middle.
Qed.

Lemma mapM_result {A B} (f : A → result B) (l : list A) :
  Forall (λ x, ∃ y, f x = Ok y) l →
  ∃ k, mapM f l = Ok k ∧ Forall2 (λ x y, f x = Ok y) l k.
Proof.
  induction 1 as [|x l [y Hy] _ (k & Hk & Hall)].
  - exists []. split; [reflexivity | constructor].
  - exists (y :: k). split; [| by constructor].
    simpl. rewrite Hy. simpl. rewrite Hk. reflexivity.
Qed.

Lemma py_range_lookup (n i : nat) :
  (i < n)%nat → py_range 0 (Z.of_nat n) !! i = Some (Z.of_nat i).
Proof.
  intros Hi. unfold py_range. rewrite list_lookup_fmap.
  replace (Z.to_nat (Z.of_nat n - 0)) with n by lia.
  rewrite lookup_seq_lt by assumption. reflexivity.
Qed.

Lemma py_range_length (n : nat) : length (py_range 0 (Z.of_nat n)) = n.
Proof.
  unfold py_range. rewrite length_fmap, length_seq. lia.
Qed.

Lemma py_range_elem (n : nat) (z : Z) :
  z ∈ py_range 0 (Z.of_nat n) → ∃ i : nat, z = Z.of_nat i ∧ (i < n)%nat.
Proof.
  unfold py_range. intros (i & -> & Hi)%list_elem_of_fmap.
  apply elem_of_seq in Hi. exists i. split; lia.
Qed.

(** ** Month-over-month growth *)

Lemma base_growth_each (base_closing : list Q) :
  ∃ growth, base_growth base_closing = Ok growth
    ∧ length growth = length base_closing
    ∧ ∀ (i : nat) (prev cur : Q),
        (0 < i)%nat →
        base_closing !! (i - 1)%nat = Some prev →
        base_closing !! i = Some cur →
        ((0 < prev)%Q →
           ∃ g, growth !! i = Some (Fin g) ∧ (g == (cur / prev - 1) * 100)%Q)
        ∧ (¬ (0 < prev)%Q → growth !! i = Some (Fin 0)).
Proof.
  unfold base_growth.
  match goal with |- context [mapM ?f _] => set (step := f) end.
  destruct (mapM_result step (py_range 0 (Z.of_nat (length base_closing))))
    as (growth & Hrun & Hall).
  { apply Forall_forall. intros z (i & -> & Hi)%py_range_elem. unfold step.
    destruct (Z.ltb_spec 0 (Z.of_nat i)); [|by eexists].
    destruct (lookup_lt_is_Some_2 base_closing (i - 1)) as [prev Hprev]; [lia|].
    destruct (lookup_lt_is_Some_2 base_closing i) as [cur Hcur]; [lia|].
    replace (Z.of_nat i - 1) with (Z.of_nat (i - 1)) by lia.
    rewrite (iloc_lookup _ _ _ Hprev), (iloc_lookup _ _ _ Hcur). simpl.
    destruct (Qgtb prev 0); by eexists. }
  exists growth. split; [exact Hrun|].
  pose proof (Forall2_length _ _ _ Hall) as Hlen. rewrite py_range_length in Hlen.
  split; [by rewrite <- Hlen|].
  intros i prev cur Hi Hprev Hcur.
  pose proof (lookup_lt_Some _ _ _ Hcur) as Hlt.
  destruct (Forall2_lookup_l _ _ _ _ _ Hall (py_range_lookup _ _ Hlt)) as (y & Hy & Hstep).
  unfold step in Hstep.
  destruct (Z.ltb_spec 0 (Z.of_nat i)); [|lia].
  replace (Z.of_nat i - 1) with (Z.of_nat (i - 1)) in Hstep by lia.
  rewrite (iloc_lookup _ _ _ Hprev), (iloc_lookup _ _ _ Hcur) in Hstep. simpl in Hstep.
  split.
  - intros Hpos. rewrite (proj2 (Qgtb_true prev 0) Hpos) in Hstep.
    rewrite Qeq_bool_false in Hstep by (intros Heq; rewrite Heq in Hpos; lra).
    injection Hstep as <-. eexists. split; [exact Hy | reflexivity].
  - intros Hnpos. rewrite (proj2 (Qgtb_false prev 0)) in Hstep by lra.
    injection Hstep as <-. exact Hy.
Qed.

(** C3.  The growth sequence of the base closing balances has one value
    per period; at every period index [i > 0] it is
    [(closing_i / closing_{i-1} - 1) * 100] when [closing_{i-1} > 0] and
    0 otherwise.  For closing balances [100, 110, 0, 90, ...] (in
    millions) the growth at index 2 is -100 and the growth at index 3
    is 0. *)
Theorem base_growth_month_over_month :
  (∀ base_closing : list Q,
     ∃ growth, base_growth base_closing = Ok growth
       ∧ length growth = length base_closing
       ∧ ∀ (i : nat) (prev cur : Q),
           (0 < i)%nat →
           base_closing !! (i - 1)%nat = Some prev →
           base_closing !! i = Some cur →
           ((0 < prev)%Q →
              ∃ g, growth !! i = Some (Fin g) ∧ (g == (cur / prev - 1) * 100)%Q)
           ∧ (¬ (0 < prev)%Q → growth !! i = Some (Fin 0)))
  ∧ (∀ rest : list Q,
       ∃ growth,
         base_growth (100000000 :: 110000000 :: 0 :: 90000000 :: rest)%Q = Ok growth
         ∧ (∃ g, growth !! 2%nat = Some (Fin g) ∧ (g == -100)%Q)
         ∧ growth !! 3%nat = Some (Fin 0)).
Proof.
  split; [exact base_growth_each|].
  intros rest.
  destruct (base_growth_each (100000000 :: 110000000 :: 0 :: 90000000 :: rest)%Q)
    as (growth & Hrun & _ & Hat).
  exists growth. split; [exact Hrun|]. split.
  - destruct (Hat 2%nat 110000000%Q 0%Q) as [Hpos _]; [lia | reflexivity | reflexivity |].
    destruct Hpos as (g & Hg & Heq); [reflexivity|].
    exists g. split; [exact Hg|]. rewrite Heq. reflexivity.
  - destruct (Hat 3%nat 0%Q 90000000%Q) as [_ Hzero]; [lia | reflexivity | reflexivity |].
    apply Hzero. intros Hlt. discriminate Hlt.
Qed.

Lemma base_growth_month_over_month_witness :
  ∃ growth,
    base_growth [100000000; 110000000; 0; 90000000; 96000000]%Q = Ok growth
    ∧ (∃ g, growth !! 2%nat = Some (Fin g) ∧ (g == -100)%Q)
    ∧ growth !! 3%nat = Some (Fin 0).
Proof.
  exact (proj2 base_growth_month_over_month [96000000]%Q).
Defined.

(** ** Risk metrics *)

Lemma signed_inf_not_finite (a : Q) :
  is_finite (np_mul (signed_inf a PInf) (Fin 100)) = false.
Proof. unfold signed_inf. by destruct (a ?= 0)%Q. Qed.

(** C4.  [risk_range] is the final closing balance of the optimistic
    series minus that of the pessimistic series, whichever is larger;
    [scenario_spread] is [risk_range / base * 100] when the final base
    balance is not 0, and no finite number when it is 0.  With final
    balances of 500M, 300M and 100M the range is 400M and the spread is
    133.3 to one decimal. *)
Theorem risk_range_and_scenario_spread :
  (∀ (optimistic_df base_df pessimistic_df : NumFrame) (best base worst : Q),
     iloc (closing optimistic_df) (-1) = Ok best →
     iloc (closing base_df) (-1) = Ok base →
     iloc (closing pessimistic_df) (-1) = Ok worst →
     ∃ r, risk_analysis optimistic_df base_df pessimistic_df = Ok r
       ∧ best_case r = best ∧ base_case r = base ∧ worst_case r = worst
       ∧ risk_range r = (best - worst)%Q
       ∧ (¬ (base == 0)%Q →
            ∃ q, scenario_spread r = Fin q ∧ (q == (best - worst) / base * 100)%Q)
       ∧ ((base == 0)%Q → is_finite (scenario_spread r) = false))
  ∧ (∀ optimistic_df base_df pessimistic_df : NumFrame,
       iloc (closing optimistic_df) (-1) = Ok 500000000%Q →
       iloc (closing base_df) (-1) = Ok 300000000%Q →
       iloc (closing pessimistic_df) (-1) = Ok 100000000%Q →
       ∃ r q, risk_analysis optimistic_df base_df pessimistic_df = Ok r
         ∧ (risk_range r == 400000000)%Q
         ∧ scenario_spread r = Fin q
         ∧ (133.25 <= q < 133.35)%Q).
Proof.
  split.
  - intros optimistic_df base_df pessimistic_df best base worst Hbest Hbase Hworst.
    unfold risk_analysis. rewrite Hbest, Hbase, Hworst. simpl.
    eexists. split; [reflexivity|]. simpl. repeat split.
    + intros Hnz. rewrite (Qeq_bool_false _ _ Hnz). eexists. split; reflexivity.
    + intros Hz. rewrite (Qeq_bool_true _ _ Hz). apply signed_inf_not_finite.
  - intros optimistic_df base_df pessimistic_df Hbest Hbase Hworst.
    unfold risk_analysis. rewrite Hbest, Hbase, Hworst. simpl.
    do 2 eexists. split; [reflexivity|]. simpl.
    split; [reflexivity|]. split; [reflexivity|]. split; [discriminate | reflexivity].
Qed.

Lemma risk_range_and_scenario_spread_witness :
  ∃ r q,
    risk_analysis
      (mkNumFrame [] [] [] [] [104000000; 500000000]%Q)
      (mkNumFrame [] [] [] [] [100000000; 300000000]%Q)
      (mkNumFrame [] [] [] [] [101000000; 100000000]%Q) = Ok r
    ∧ (risk_range r == 400000000)%Q
    ∧ scenario_spread r = Fin q
    ∧ (133.25 <= q < 133.35)%Q.
Proof.
  apply (proj2 risk_range_and_scenario_spread); reflexivity.
Defined.

(** The range is structural: with the larger balance in the pessimistic
    series it is negative. *)
Example risk_range_may_be_negative :
  ∃ r, risk_analysis
         (mkNumFrame [] [] [] [] [100000000]%Q)
         (mkNumFrame [] [] [] [] [300000000]%Q)
         (mkNumFrame [] [] [] [] [500000000]%Q) = Ok r
       ∧ (risk_range r == -400000000)%Q.
Proof. eexists. split; reflexivity. Qed.

(** ** Means and the expense ratio *)








(** ** The correlation guard *)

(** The coefficient is computed only under the guard. *)
Lemma correlation_guard (corr : list float → list float → float)
    (base_inflows base_outflows : list float) (r : float) (s : Binary64.strength) :
  Binary64.correlation corr base_inflows base_outflows = Binary64.Correlation r s →
  Binary64.std_positive base_inflows = true ∧ Binary64.std_positive base_outflows = true
  ∧ r = corr base_inflows base_outflows.
Proof.
  unfold Binary64.correlation.
  destruct (Binary64.std_positive base_inflows); [|discriminate].
  destruct (Binary64.std_positive base_outflows); [|discriminate].
  intros [= <- _]. done.
Qed.

(** C8, where the script falls short of it.  Nine inflows of 7.3 are a
    constant column, yet its mean is computed as 7.300000000000001, its
    standard deviation as 9.42e-16, and the guard [std() > 0] passes:
    with outflows of positive standard deviation the block computes a
    coefficient and gives it a reading, where the claim has it report
    that the correlation cannot be calculated.  Nine inflows of
    10,000,000 have the standard deviation 0, and for them it does. *)
Theorem correlation_of_constant_inflows
    (corr : list float → list float → float) (base_outflows : list float) :
  Binary64.std_positive base_outflows = true →
  let base_inflows := replicate 9 0x1.d333333333333p+2%float in
  Binary64.series_mean base_inflows = 0x1.d333333333334p+2%float
  ∧ Binary64.series_std base_inflows = 0x1.0f876ccdf6cd9p-50%float
  ∧ Binary64.std_positive base_inflows = true
  ∧ (∃ s, Binary64.correlation corr base_inflows base_outflows
          = Binary64.Correlation (corr base_inflows base_outflows) s)
  ∧ Binary64.series_std (replicate 9 10000000%float) = 0%float
  ∧ Binary64.correlation corr (replicate 9 10000000%float) base_outflows
    = Binary64.CannotCalculate.
Proof.
  intros Hout base_inflows.
  assert (Hstd : Binary64.std_positive base_inflows = true) by (vm_compute; reflexivity).
  split; [vm_compute; reflexivity|]. split; [vm_compute; reflexivity|].
  split; [exact Hstd|]. split; [|split; [vm_compute; reflexivity|]].
  - unfold Binary64.correlation. rewrite Hstd, Hout. cbn [andb]. by eexists.
  - unfold Binary64.correlation.
    assert (Binary64.std_positive (replicate 9 10000000%float) = false) as ->
      by (vm_compute; reflexivity).
    reflexivity.
Qed.

Lemma correlation_of_constant_inflows_witness :
  let base_outflows := [8000000; 9000000; 9000000; 10000000; 12000000; 11000000;
                        13000000; 14000000; 15000000]%float in
  Binary64.std_positive base_outflows = true
  ∧ ∃ s, Binary64.correlation (λ _ _, nan) (replicate 9 0x1.d333333333333p+2%float)
           base_outflows
         = Binary64.Correlation nan s.
Proof.
  intros base_outflows.
  assert (Hout : Binary64.std_positive base_outflows = true) by (vm_compute; reflexivity).
  split; [exact Hout|].
  destruct (correlation_of_constant_inflows (λ _ _, nan) base_outflows Hout)
    as (_ & _ & _ & Hcorr & _).
  exact Hcorr.
Defined.

(** ** The run, stage by stage *)

Lemma on_wb_run {A} (body : M workbook A) (book : workbook) (o : list event) :
  on_wb body (mkState book o) = let '(r, book') := body book in (r, mkState book' o).
Proof. reflexivity. Qed.

Lemma print_run (ev : event) (book : workbook) (o : list event) :
  print ev (mkState book o) = (Ok (), mkState book (o ++ [ev])).
Proof. reflexivity. Qed.

Lemma lift_run {S A} (r : result A) (s : S) : lift r s = (r, s).
Proof. reflexivity. Qed.

Ltac step :=
  first [ rewrite M_bind_run | rewrite on_wb_run | rewrite print_run
        | rewrite lift_run | rewrite M_ret_run ].

(** *** Extraction of the three scenarios *)

Lemma months_first_last (ws : worksheet) :
  ∃ first last, iloc (Month (frame_of ws)) 0 = Ok first
                ∧ iloc (Month (frame_of ws)) (-1) = Ok last.
Proof. unfold frame_of. rewrite columns_B_J. by do 2 eexists. Qed.

Lemma extract_all_present (book : workbook) (o : list event) (ws1 ws2 ws3 : worksheet) :
  book !! "Skenario Base" = Some ws1 →
  book !! "Skenario Optimistis" = Some ws2 →
  book !! "Skenario Pesimistis" = Some ws3 →
  ∃ book' first last,
    extract_all (mkState book o)
      = (Ok (frame_of ws1, frame_of ws2, frame_of ws3),
         mkState book' (o ++ [EExtracted 9 first last]))
    ∧ book' !! "Analisis Break-Even" = book !! "Analisis Break-Even".
Proof.
  intros H1 H2 H3.
  destruct (extract_present book _ ws1 H1) as (w1 & E1 & _).
  destruct (extract_present (<["Skenario Base" := w1]> book) "Skenario Optimistis" ws2)
    as (w2 & E2 & _); [by rewrite lookup_insert_ne|].
  destruct (extract_present
              (<["Skenario Optimistis" := w2]> (<["Skenario Base" := w1]> book))
              "Skenario Pesimistis" ws3)
    as (w3 & E3 & _); [by rewrite !lookup_insert_ne|].
  destruct (months_first_last ws1) as (first & last & Hfirst & Hlast).
  eexists _, first, last. split.
  - unfold extract_all, try_except.
    step. step. rewrite E1. step. step. rewrite E2. step. step. rewrite E3.
    step. step. rewrite Hfirst. step. step. rewrite Hlast. step. step. step.
    reflexivity.
  - by rewrite !lookup_insert_ne.
Qed.

Lemma extract_all_missing (book : workbook) (o : list event) :
  book !! "Skenario Base" = None
  ∨ book !! "Skenario Optimistis" = None
  ∨ book !! "Skenario Pesimistis" = None →
  ∃ sheet_name book',
    book !! sheet_name = None
    ∧ extract_all (mkState book o)
        = (Raise (SystemExit 1),
           mkState book' (o ++ [EExtractError (KeyError sheet_name)])).
Proof.
  intros Hmissing. unfold extract_all, try_except.
  destruct (book !! "Skenario Base") as [ws1|] eqn:H1.
  - destruct (extract_present book _ ws1 H1) as (w1 & E1 & _).
    destruct (book !! "Skenario Optimistis") as [ws2|] eqn:H2.
    + assert (H3 : book !! "Skenario Pesimistis" = None)
        by (destruct Hmissing as [?|[?|?]]; congruence).
      destruct (extract_present (<["Skenario Base" := w1]> book) "Skenario Optimistis" ws2)
        as (w2 & E2 & _); [by rewrite lookup_insert_ne|].
      eexists "Skenario Pesimistis", _. split; [exact H3|].
      step. step. rewrite E1. step. step. rewrite E2. step. step.
      rewrite extract_missing by (by rewrite !lookup_insert_ne).
      reflexivity.
    + eexists "Skenario Optimistis", _. split; [exact H2|].
      step. step. rewrite E1. step. step.
      rewrite extract_missing by (by rewrite lookup_insert_ne).
      reflexivity.
  - eexists "Skenario Base", _. split; [exact H1|].
    step. step. rewrite extract_missing by exact H1. reflexivity.
Qed.

(** C5.  When one of the three scenario sheets is missing from the
    workbook, the extraction raises, the run ends with exit status 1, and
    all it has written is the extraction error: no section of the report
    and no file. *)
Theorem missing_scenario_sheet_is_fatal (e : env) (book : workbook) :
  excel_file e = Some book →
  book !! "Skenario Base" = None
  ∨ book !! "Skenario Optimistis" = None
  ∨ book !! "Skenario Pesimistis" = None →
  ∃ o sheet_name,
    run e = Some o
    ∧ exit_status o = 1
    ∧ book !! sheet_name = None
    ∧ log o = [ELoading; EExtractError (KeyError sheet_name)]
    ∧ Forall (λ ev, is_result ev = false) (log o).
Proof.
  intros Hfile Hmissing.
  destruct (extract_all_missing book [ELoading] Hmissing) as (name & book' & Hname & Hrun).
  exists (mkOutcome 1 [ELoading; EExtractError (KeyError name)]), name.
  split; [|split; [reflexivity|]; split; [exact Hname|]; split; [reflexivity|]].
  - unfold run. rewrite Hfile, Hrun. reflexivity.
  - simpl. by repeat constructor.
Qed.

Lemma missing_scenario_sheet_is_fatal_witness :
  ∃ o sheet_name,
    run (sample_env sample_workbook_two) = Some o
    ∧ exit_status o = 1
    ∧ sample_workbook_two !! sheet_name = None
    ∧ log o = [ELoading; EExtractError (KeyError sheet_name)]
    ∧ Forall (λ ev, is_result ev = false) (log o).
Proof.
  apply (missing_scenario_sheet_is_fatal (sample_env sample_workbook_two) sample_workbook_two).
  - reflexivity.
  - right. right. reflexivity.
Defined.

(** *** Numeric frames of numeric sheets *)



(** *** Stages that cannot raise on nine periods *)

Lemma iloc_ends {A} (s : list A) :
  s ≠ [] → ∃ x y, iloc s 0 = Ok x ∧ iloc s (-1) = Ok y.
Proof.
  intros Hne. destruct s as [|x s]; [done|]. exists x.
  destruct (exists_last (l := x :: s)) as (s' & y & Heq); [done|].
  exists y. split; [exact (iloc_lookup (x :: s) 0 x eq_refl)|].
  rewrite Heq. apply iloc_last.
Qed.

Lemma growth_rate_total (base_inflows : list Q) :
  base_inflows ≠ [] → ∃ g, growth_rate base_inflows = Ok g.
Proof.
  intros (first & last & Hfirst & Hlast)%iloc_ends. unfold growth_rate.
  rewrite Hfirst. simpl. destruct (Qgtb first 0); [|by eexists].
  rewrite Hlast. by eexists.
Qed.

Lemma scenario_column_total (df : NumFrame) :
  closing df ≠ [] → ∃ c, scenario_column df = Ok c.
Proof.
  intros (_ & last & _ & Hlast)%iloc_ends. unfold scenario_column.
  rewrite Hlast. by eexists.
Qed.

Lemma risk_analysis_total (optimistic_df base_df pessimistic_df : NumFrame) :
  closing optimistic_df ≠ [] → closing base_df ≠ [] → closing pessimistic_df ≠ [] →
  ∃ r, risk_analysis optimistic_df base_df pessimistic_df = Ok r.
Proof.
  intros (_ & best & _ & Hbest)%iloc_ends (_ & base & _ & Hbase)%iloc_ends
         (_ & worst & _ & Hworst)%iloc_ends.
  unfold risk_analysis. rewrite Hbest, Hworst, Hbase. by eexists.
Qed.

Lemma nonempty_of_length {A} (s : list A) : length s = 9%nat → s ≠ [].
Proof. by destruct s. Qed.

(** *** The break-even block *)

Lemma py_truediv_Exception (v : value) (d : Q) (ex : exn) :
  py_truediv v d = Raise ex → is_Exception ex = true.
Proof.
  unfold py_truediv. destruct (as_number v); [destruct (Qeq_bool d 0)|];
    intros [= <-]; reflexivity.
Qed.

Lemma format_f_Exception (v : value) (ex : exn) :
  format_f v = Raise ex → is_Exception ex = true.
Proof. destruct v; intros [= <-]; reflexivity. Qed.

Lemma py_mul_Exception (v : value) (k : nat) (ex : exn) :
  py_mul v k = Raise ex → is_Exception ex = true.
Proof. destruct v; intros [= <-]; reflexivity. Qed.







(** *** The break-even block on any workbook *)

Lemma py_gt_Exception (v : value) (t : Q) (ex : exn) :
  py_gt v t = Raise ex → is_Exception ex = true.
Proof. unfold py_gt. destruct (as_number v); intros [= <-]; reflexivity. Qed.

Lemma same_book_insert (book : workbook) (sheet_name : string) (ws ws' : worksheet) :
  book !! sheet_name = Some ws → same_cells ws ws' →
  same_book book (<[sheet_name := ws']> book).
Proof.
  intros Hsheet Hsame n. destruct (decide (sheet_name = n)) as [<-|Hne].
  - by rewrite lookup_insert_eq, Hsheet.
  - rewrite lookup_insert_ne by done.
    destruct (book !! n); [apply same_cells_refl | exact I].
Qed.

Ltac report_ends evs r tac :=
  exists evs, r; split; [by repeat constructor|];
  split; [intros book o; repeat step; tac; repeat step;
          rewrite <- ?app_assoc; reflexivity|].

(** The report either reaches its status line or raises an exception,
    and what it has printed by then holds no verdict. *)
Lemma break_even_report_outcome
    (be_revenue be_transactions current_revenue safety_margin : value) :
  ∃ evs r,
    Forall (λ ev, is_break_even_event ev = true) evs
    ∧ (∀ book o,
         break_even_report be_revenue be_transactions current_revenue safety_margin
           (mkState book o) = (r, mkState book (o ++ evs)))
    ∧ match r with
      | Ok _ => ∃ pre status,
          evs = pre ++ [EBreakEvenStatus status]
          ∧ Forall (λ ev, is_break_even_verdict ev = false) pre
      | Raise ex =>
          is_Exception ex = true ∧ Forall (λ ev, is_break_even_verdict ev = false) evs
      end.
Proof.
  unfold break_even_report.
  destruct (py_truediv be_revenue 1000000) as [x1|ex] eqn:H1.
  2:{ report_ends [EBreakEvenHeader] (Raise ex : result ()) idtac.
      split; [by eapply py_truediv_Exception | by repeat constructor]. }
  destruct (format_f be_transactions) as [x2|ex] eqn:H2.
  2:{ report_ends [EBreakEvenHeader; EBreakEvenLine BE_Revenue (VNum x1)]
        (Raise ex : result ()) idtac.
      split; [by eapply format_f_Exception | by repeat constructor]. }
  destruct (py_truediv current_revenue 1000000) as [x3|ex] eqn:H3.
  2:{ report_ends [EBreakEvenHeader; EBreakEvenLine BE_Revenue (VNum x1);
                   EBreakEvenLine BE_Transactions x2] (Raise ex : result ()) idtac.
      split; [by eapply py_truediv_Exception | by repeat constructor]. }
  set (lines := [EBreakEvenHeader; EBreakEvenLine BE_Revenue (VNum x1);
                 EBreakEvenLine BE_Transactions x2;
                 EBreakEvenLine Current_Revenue (VNum x3)]).
  destruct (py_mul safety_margin 100) as [y|ex] eqn:H4.
  2:{ report_ends lines (Raise ex : result ()) idtac.
      split; [by eapply py_mul_Exception | by repeat constructor]. }
  destruct (format_f y) as [x4|ex] eqn:H5.
  2:{ report_ends lines (Raise ex : result ()) ltac:(rewrite H5).
      split; [by eapply format_f_Exception | by repeat constructor]. }
  destruct (py_gt safety_margin (15 # 100)) as [high|ex] eqn:H6.
  2:{ report_ends (lines ++ [EBreakEvenLine Safety_Margin x4]) (Raise ex : result ())
        ltac:(rewrite H5).
      split; [by eapply py_gt_Exception | by repeat constructor]. }
  destruct high.
  { report_ends (lines ++ [EBreakEvenLine Safety_Margin x4; EBreakEvenStatus AMAN])
      (Ok ()) ltac:(rewrite H5).
    exists (lines ++ [EBreakEvenLine Safety_Margin x4]), AMAN.
    split; [by rewrite <- app_assoc | by repeat constructor]. }
  destruct (py_gt safety_margin (8 # 100)) as [mid|ex] eqn:H7.
  2:{ report_ends (lines ++ [EBreakEvenLine Safety_Margin x4]) (Raise ex : result ())
        ltac:(rewrite H5).
      split; [by eapply py_gt_Exception | by repeat constructor]. }
  report_ends (lines ++ [EBreakEvenLine Safety_Margin x4;
                         EBreakEvenStatus (if mid then CUKUP_AMAN else PERLU_PERHATIAN)])
    (Ok ()) ltac:(rewrite H5).
  exists (lines ++ [EBreakEvenLine Safety_Margin x4]), (if mid then CUKUP_AMAN else PERLU_PERHATIAN).
  split; [by rewrite <- app_assoc | by repeat constructor].
Qed.

Lemma break_even_cells (be : worksheet) :
  ∃ be',
    (ws_cell 11 2 ≫= λ be_revenue, ws_cell 10 2 ≫= λ be_transactions,
     ws_cell 14 2 ≫= λ current_revenue, ws_cell 18 2 ≫= λ safety_margin,
     mret (py_or be_revenue (VNum 0), py_or be_transactions (VNum 0),
           py_or current_revenue (VNum 0), py_or safety_margin (VNum 0))) be
    = (Ok (py_or (cell_value be 11 2) (VNum 0), py_or (cell_value be 10 2) (VNum 0),
           py_or (cell_value be 14 2) (VNum 0), py_or (cell_value be 18 2) (VNum 0)), be')
    ∧ same_cells be be'.
Proof.
  eexists. split.
  - rewrite !M_bind_run, ws_cell_ok by lia.
    rewrite !M_bind_run, ws_cell_ok by lia.
    rewrite !M_bind_run, ws_cell_ok by lia.
    rewrite !M_bind_run, ws_cell_ok by lia.
    rewrite M_ret_run, !cell_value_touch. reflexivity.
  - intros row col. by rewrite !cell_value_touch.
Qed.

Lemma break_even_block_outcome (book : workbook) :
  ∃ book' pre verdict,
    (∀ o, break_even_analysis (mkState book o)
          = (Ok (), mkState book' (o ++ pre ++ [verdict])))
    ∧ is_break_even_verdict verdict = true
    ∧ Forall (λ ev, is_break_even_event ev = true ∧ is_break_even_verdict ev = false) pre
    ∧ same_book book book'.
Proof.
  unfold break_even_analysis, try_except.
  destruct (book !! "Analisis Break-Even") as [be|] eqn:Hsheet.
  - destruct (break_even_cells be) as (be' & Hcells & Hsame).
    destruct (break_even_report_outcome
                (py_or (cell_value be 11 2) (VNum 0)) (py_or (cell_value be 10 2) (VNum 0))
                (py_or (cell_value be 14 2) (VNum 0)) (py_or (cell_value be 18 2) (VNum 0)))
      as (evs & r & Hevs & Hrun & Hr).
    destruct r as [[]|ex].
    + destruct Hr as (pre & status & -> & Hpre).
      exists (<["Analisis Break-Even" := be']> book), pre, (EBreakEvenStatus status).
      split; [|split; [reflexivity|split]].
      * intros o. step. step. unfold in_sheet. rewrite Hsheet, Hcells, Hrun. reflexivity.
      * apply Forall_app in Hevs as [Hevs _]. rewrite Forall_forall in *. auto.
      * by eapply same_book_insert.
    + destruct Hr as (Hex & Hpre).
      exists (<["Analisis Break-Even" := be']> book), evs, (EBreakEvenUnavailable ex).
      split; [|split; [reflexivity|split]].
      * intros o. step. step. unfold in_sheet. rewrite Hsheet, Hcells, Hrun, Hex.
        step. by rewrite app_assoc.
      * rewrite Forall_forall in *. auto.
      * by eapply same_book_insert.
  - exists book, [], (EBreakEvenUnavailable (KeyError "Analisis Break-Even")).
    split; [|split; [reflexivity|split; [constructor | apply same_book_refl]]].
    intros o. step. step. unfold in_sheet. rewrite Hsheet. reflexivity.
Qed.

(** *** The analysis around the break-even block *)

Lemma visualizations_run (e : env) (base_df : NumFrame) (book : workbook) (o : list event) :
  ∃ growth, base_growth (closing base_df) = Ok growth
            ∧ visualizations e base_df (mkState book o)
              = (Ok (), mkState book (o ++ [dashboard_event e growth])).
Proof.
  destruct (base_growth_each (closing base_df)) as (growth & Hrun & _).
  exists growth. split; [exact Hrun|]. unfold visualizations, try_except, dashboard_event.
  step. step. rewrite Hrun. destruct (savefig_ok e); reflexivity.
Qed.

Lemma export_summary_run (e : env) (s : summary_df) (c : combined_df)
    (book : workbook) (o : list event) :
  export_summary e s c (mkState book o) = (Ok (), mkState book (o ++ export_events e s c)).
Proof.
  unfold export_summary, export_events, try_except, raise, print, lift.
  rewrite M_bind_run.
  destruct (summary_to_csv_ok e), (scenario_to_csv_ok e); cbn [wb out is_Exception];
    rewrite <- ?app_assoc; reflexivity.
Qed.

Lemma numeric_frame_lengths (df : DataFrame) (nf : NumFrame) :
  numeric_frame df = Some nf →
  length (months nf) = length (Month df)
  ∧ length (inflows nf) = length (Total_Inflows df)
  ∧ length (outflows nf) = length (Total_Outflows df)
  ∧ length (net_cf nf) = length (Net_Cash_Flow df)
  ∧ length (closing nf) = length (Closing_Balance df).
Proof.
  unfold numeric_frame. intros Hnf.
  destruct (mapM numeric (Total_Inflows df)) as [a|] eqn:Ha; [|discriminate].
  destruct (mapM numeric (Total_Outflows df)) as [b|] eqn:Hb; [|discriminate].
  destruct (mapM numeric (Net_Cash_Flow df)) as [n|] eqn:Hn; [|discriminate].
  destruct (mapM numeric (Closing_Balance df)) as [c|] eqn:Hc; [|discriminate].
  injection Hnf as <-. simpl.
  by rewrite (length_mapM _ _ _ Ha), (length_mapM _ _ _ Hb), (length_mapM _ _ _ Hn),
    (length_mapM _ _ _ Hc).
Qed.

(** The numeric frame of an extracted sheet has nine periods. *)
Lemma numeric_frame_nine (ws : worksheet) (nf : NumFrame) :
  numeric_frame (frame_of ws) = Some nf → nine_periods nf.
Proof.
  intros (Hm & Hi & Ho & Hn & Hc)%numeric_frame_lengths.
  unfold frame_of in *.
  cbn [Month Total_Inflows Total_Outflows Net_Cash_Flow Closing_Balance] in *.
  rewrite length_fmap, columns_B_J in Hm, Hi, Ho, Hn, Hc.
  by repeat split.
Qed.

Lemma arange_length (n : nat) : length (arange n) = n.
Proof. unfold arange. by rewrite length_fmap, length_seq. Qed.

(** On nine periods the two fits are made and the trend is printed. *)
Lemma statistical_analysis_run (base_df : NumFrame) (book : workbook) (o : list event) :
  nine_periods base_df →
  statistical_analysis base_df (mkState book o)
  = (Ok (), mkState book (o ++ [EVolatility; ECorrelation; ETrend])).
Proof.
  intros (Hm & Hi & Ho & _). unfold statistical_analysis, np_polyfit.
  rewrite arange_length, Hm, Hi, Ho. cbn [Nat.ltb Nat.leb Nat.eqb orb negb].
  repeat step. by rewrite <- !app_assoc.
Qed.

(** The analysis of three frames of nine periods ends normally once the
    break-even block does: its log is the report, what the block has
    written, the outcome of the dashboard and of the export, and the
    completion message. *)
Lemma analysis_run (e : env) (base_df optimistic_df pessimistic_df : NumFrame)
    (book book' : workbook) (o block : list event) :
  nine_periods base_df → nine_periods optimistic_df → nine_periods pessimistic_df →
  (∀ o', break_even_analysis (mkState book o') = (Ok (), mkState book' (o' ++ block))) →
  ∃ g co cb cp r growth,
    growth_rate (inflows base_df) = Ok g
    ∧ risk_analysis optimistic_df base_df pessimistic_df = Ok r
    ∧ base_growth (closing base_df) = Ok growth
    ∧ analysis e base_df optimistic_df pessimistic_df (mkState book o)
      = (Ok (), mkState book'
                  (o ++ report base_df g co cb cp r ++ block
                     ++ dashboard_event e growth
                     :: export_events e (summary_of base_df g r)
                          (combined_of base_df optimistic_df pessimistic_df)
                     ++ [EComplete])).
Proof.
  intros Nb Np Nq Hbe.
  pose proof Nb as (_ & Hbi & _ & _ & Hbc).
  pose proof Np as (_ & _ & _ & _ & Hpc).
  pose proof Nq as (_ & _ & _ & _ & Hqc).
  apply nonempty_of_length in Hbi, Hbc, Hpc, Hqc.
  destruct (growth_rate_total _ Hbi) as (g & Hg).
  destruct (scenario_column_total _ Hpc) as (co & Hco).
  destruct (scenario_column_total _ Hbc) as (cb & Hcb).
  destruct (scenario_column_total _ Hqc) as (cp & Hcp).
  destruct (risk_analysis_total _ _ _ Hpc Hbc Hqc) as (r & Hr).
  destruct (base_growth_each (closing base_df)) as (growth & Hgrowth & _).
  exists g, co, cb, cp, r, growth.
  split; [exact Hg|]. split; [exact Hr|]. split; [exact Hgrowth|].
  unfold analysis, descriptive_statistics, scenario_comparison.
  repeat step. rewrite Hg. repeat step. rewrite Hco. repeat step. rewrite Hcb.
  repeat step. rewrite Hcp. repeat step. rewrite Hr. repeat step.
  rewrite statistical_analysis_run by exact Nb. step.
  rewrite Hbe. step.
  match goal with |- context [visualizations e base_df (mkState ?b ?o1)] =>
    destruct (visualizations_run e base_df b o1) as (growth' & Hgrowth' & Hviz)
  end.
  assert (growth' = growth) as -> by congruence.
  rewrite Hviz. step. rewrite export_summary_run. step.
  f_equal. f_equal. unfold report, key_metrics, summary_of, combined_of.
  rewrite <- !app_assoc. reflexivity.
Qed.






(** With a well-formed break-even sheet the same workbook gets its status. *)
Example break_even_status_when_available :
  ∃ o, run (sample_env (<["Analisis Break-Even" :=
                            <[(18, 2) := VNum (2 # 10)]> sample_break_even_text]>
                          sample_workbook)) = Some o
       ∧ exit_status o = 0
       ∧ EBreakEvenStatus AMAN ∈ log o.
Proof.
  eexists. split; [vm_compute; reflexivity|]. split; [reflexivity|].
  cbn [log]. rewrite !elem_of_cons. auto 20.
Qed.

(** An amount beyond 2^53 is outside the numeric columns of the model. *)
Example numeric_bound :
  numeric (VNum (inject_Z (2 ^ 53))) = Some (inject_Z (2 ^ 53))
  ∧ numeric (VNum (inject_Z (2 ^ 64))) = None
  ∧ numeric (VNum (- inject_Z (2 ^ 64))) = None.
Proof. repeat split; reflexivity. Qed.

(** ** The run as a whole *)

(** The run on a workbook with the three scenario sheets, once the
    amount columns are numeric. *)
Lemma run_report (e : env) (book : workbook) (ws_base ws_opt ws_pes : worksheet)
    (base_df optimistic_df pessimistic_df : NumFrame) :
  excel_file e = Some book →
  book !! "Skenario Base" = Some ws_base →
  book !! "Skenario Optimistis" = Some ws_opt →
  book !! "Skenario Pesimistis" = Some ws_pes →
  numeric_frame (frame_of ws_base) = Some base_df →
  numeric_frame (frame_of ws_opt) = Some optimistic_df →
  numeric_frame (frame_of ws_pes) = Some pessimistic_df →
  ∃ first last g co cb cp r block growth,
    growth_rate (inflows base_df) = Ok g
    ∧ risk_analysis optimistic_df base_df pessimistic_df = Ok r
    ∧ base_growth (closing base_df) = Ok growth
    ∧ Forall (λ ev, is_break_even_event ev = true) block
    ∧ run e = Some (mkOutcome 0
        ([ELoading; EExtracted 9 first last] ++ report base_df g co cb cp r ++ block
           ++ dashboard_event e growth
           :: export_events e (summary_of base_df g r)
                (combined_of base_df optimistic_df pessimistic_df)
           ++ [EComplete])).
Proof.
  intros Hfile H1 H2 H3 Hb Hp Hq.
  destruct (extract_all_present book [ELoading] _ _ _ H1 H2 H3)
    as (book1 & first & last & Hextract & _).
  destruct (break_even_block_outcome book1)
    as (book2 & pre & verdict & Hblock & Hverdict & Hpre & _).
  destruct (analysis_run e base_df optimistic_df pessimistic_df book1 book2
              [ELoading; EExtracted 9 first last] (pre ++ [verdict]))
    as (g & co & cb & cp & r & growth & Hg & Hr & Hgrowth & Hrun);
    eauto using numeric_frame_nine.
  exists first, last, g, co, cb, cp, r, (pre ++ [verdict]), growth.
  split; [exact Hg|]. split; [exact Hr|]. split; [exact Hgrowth|]. split.
  - apply Forall_app. split.
    + rewrite Forall_forall in *. intros ev Hev. by apply Hpre.
    + constructor; [|constructor]. by destruct verdict.
  - unfold run. rewrite Hfile, Hextract, Hb, Hp, Hq. simpl. rewrite Hrun. reflexivity.
Qed.


Lemma no_traceback_report (base_df : NumFrame) (g : npfloat) (co cb cp : list npfloat)
    (r : RiskMetrics) :
  Forall (λ ev, is_result ev = true ∧ is_output ev = false) (report base_df g co cb cp r).
Proof. by repeat constructor. Qed.




(** A run of the cafe's workbook end to end: the risk section and the
    dashboard carry the values of [risk_analysis] and [base_growth] on
    the extracted frames (final balances 500, 300 and 100 million; base
    closing balances 100, 110, 0, 90, ... million). *)
Example cafe_run_report :
  ∃ o r growth spread g2,
    run (cafe_env cafe_workbook) = Some o
    ∧ exit_status o = 0
    ∧ log o !! 5%nat = Some (ERisk r)
    ∧ (risk_range r == 400000000)%Q
    ∧ scenario_spread r = Fin spread ∧ (spread == 400 / 3)%Q
    ∧ log o !! 10%nat = Some (EDashboardSaved growth)
    ∧ growth !! 2%nat = Some (Fin g2) ∧ (g2 == -100)%Q
    ∧ growth !! 3%nat = Some (Fin 0).
Proof.
  eexists _, _, _, _, _. split; [vm_compute; reflexivity|].
  repeat split; reflexivity.
Qed.

(** * Further properties *)

(** ** What the extraction reads and what it keeps *)

Lemma columns_extracted (i : nat) (col : Z) :
  py_range 2 11 !! i = Some col → 2 ≤ col ≤ 10.
Proof.
  rewrite columns_B_J. intros Hcol%list_elem_of_lookup_2.
  rewrite !elem_of_cons, elem_of_nil in Hcol. lia.
Qed.

Lemma frame_of_extracted_cells (ws ws' : worksheet) :
  (∀ row col, extracted_cell row col → cell_value ws' row col = cell_value ws row col) →
  frame_of ws' = frame_of ws.
Proof.
  intros Hsame. unfold frame_of.
  f_equal; apply list_fmap_ext; intros i col Hcol%columns_extracted;
    rewrite Hsame; try reflexivity; (split; [|exact Hcol]);
    rewrite !elem_of_cons; auto 10.
Qed.

(** X1.  The frame of a sheet depends on the 54 cells of rows 4, 5, 13,
    25, 27, 29 and columns 2 to 10 only: two workbooks whose sheets of
    that name agree on these cells give the same frame, whatever else the
    sheets or the workbooks hold. *)
Theorem extraction_reads_only_its_cells
    (book book' : workbook) (sheet_name : string) (ws ws' : worksheet) :
  book !! sheet_name = Some ws →
  book' !! sheet_name = Some ws' →
  (∀ row col, extracted_cell row col → cell_value ws' row col = cell_value ws row col) →
  (extract_scenario_data sheet_name book').1 = (extract_scenario_data sheet_name book).1.
Proof.
  intros Hws Hws' Hsame.
  destruct (extract_present book sheet_name ws Hws) as (w & -> & _).
  destruct (extract_present book' sheet_name ws' Hws') as (w' & -> & _).
  simpl. f_equal. by apply frame_of_extracted_cells.
Qed.

Lemma cell_value_insert_ne (ws : worksheet) (r c row col : Z) (v : value) :
  (r, c) ≠ (row, col) → cell_value (<[(r, c) := v]> ws) row col = cell_value ws row col.
Proof. intros Hne. unfold cell_value. by rewrite lookup_insert_ne. Qed.

Lemma extraction_reads_only_its_cells_witness :
  (extract_scenario_data "Skenario Base"
     (<["Skenario Base" := <[(30, 2) := VStr "total"]> sample_base]> sample_workbook_two)).1
  = (extract_scenario_data "Skenario Base" sample_workbook).1.
Proof.
  apply (extraction_reads_only_its_cells sample_workbook _ "Skenario Base"
           sample_base (<[(30, 2) := VStr "total"]> sample_base)).
  - reflexivity.
  - reflexivity.
  - intros row col [Hrow _]. apply cell_value_insert_ne.
    intros [= <- <-]. rewrite !elem_of_cons, elem_of_nil in Hrow. lia.
Defined.

(** X2.  In record [i] (column [2 + i]) every truthy cell is returned
    unchanged, and every falsy cell, be it blank, an empty text, [False]
    or a stored 0, is read as the number 0 (as ["Month {col-1}"] in the
    header row): in the frame a stored zero cannot be told from a blank. *)
Theorem extraction_keeps_truthy_cells
    (book : workbook) (sheet_name : string) (ws : worksheet) :
  book !! sheet_name = Some ws →
  ∃ df book',
    extract_scenario_data sheet_name book = (Ok df, book')
    ∧ ∀ i : nat, (i < 9)%nat →
        let col := 2 + Z.of_nat i in
        let kept (c field default : value) :=
          (truthy c = true → field = c) ∧ (truthy c = false → field = default) in
        ∃ rec, records df !! i = Some rec
          ∧ kept (cell_value ws 4 col) (period_label rec)
                 (VStr ("Month " +:+ pretty (col - 1)))
          ∧ kept (cell_value ws 5 col) (opening_balance rec) (VNum 0)
          ∧ kept (cell_value ws 13 col) (total_inflows rec) (VNum 0)
          ∧ kept (cell_value ws 25 col) (total_outflows rec) (VNum 0)
          ∧ kept (cell_value ws 27 col) (net_cash_flow rec) (VNum 0)
          ∧ kept (cell_value ws 29 col) (closing_balance rec) (VNum 0).
Proof.
  intros Hsheet.
  destruct (extract_present book sheet_name ws Hsheet) as (ws' & Hrun & _).
  exists (frame_of ws), (<[sheet_name := ws']> book).
  split; [exact Hrun|].
  unfold records, df_len, frame_of. rewrite columns_B_J.
  intros i Hi. cbv zeta.
  do 9 (destruct i as [|i];
    [ eexists; split; [reflexivity|];
      cbv [Z.of_nat Z.add Pos.of_succ_nat Pos.succ Pos.add]; simpl; unfold py_or;
      repeat split; intros ->; reflexivity
    | ]).
  lia.
Qed.

Lemma extraction_keeps_truthy_cells_witness :
  ∃ df book',
    extract_scenario_data "Skenario Base" sample_workbook = (Ok df, book')
    ∧ ∃ rec, records df !! 2%nat = Some rec
        ∧ period_label rec = VStr "Mar"
        ∧ opening_balance rec = VNum 0
        ∧ closing_balance rec = VNum 0.
Proof.
  destruct (extraction_keeps_truthy_cells sample_workbook "Skenario Base" sample_base)
    as (df & book' & Hrun & Hrows); [reflexivity|].
  exists df, book'. split; [exact Hrun|].
  destruct (Hrows 2%nat) as (rec & Hrec & Hlabel & Hopen & _ & _ & _ & Hclose); [lia|].
  exists rec. split; [exact Hrec|].
  split; [exact (proj1 Hlabel eq_refl)|].
  split; [exact (proj2 Hopen eq_refl) | exact (proj2 Hclose eq_refl)].
Defined.

(** ** Month-over-month growth and the growth rate *)

(** X4.  The month-over-month growth at a period index [i > 0] is the
    growth rate of the two-period series made of the previous and the
    current closing balance: the same formula behind the same guard. *)
Theorem month_over_month_is_growth_rate
    (base_closing : list Q) (i : nat) (prev cur : Q) :
  (0 < i)%nat →
  base_closing !! (i - 1)%nat = Some prev →
  base_closing !! i = Some cur →
  ∃ growth g,
    base_growth base_closing = Ok growth
    ∧ growth !! i = Some g
    ∧ growth_rate [prev; cur] = Ok g.
Proof.
  intros Hi Hprev Hcur.
  destruct (base_growth_each base_closing) as (growth & Hrun & _ & _).
  exists growth. unfold base_growth in Hrun.
  match type of Hrun with context [mapM ?f _] => set (step := f) in * end.
  assert (Hall : Forall2 (λ x y, step x = Ok y)
                   (py_range 0 (Z.of_nat (length base_closing))) growth).
  { clear -Hrun. revert growth Hrun.
    induction (py_range 0 (Z.of_nat (length base_closing))) as [|z l IH];
      intros growth Hrun.
    - injection Hrun as <-. constructor.
    - simpl in Hrun. destruct (step z) as [y|] eqn:Hy; [|discriminate].
      simpl in Hrun. destruct (mapM step l) as [k|] eqn:Hk; [|discriminate].
      injection Hrun as <-. constructor; [exact Hy | by apply IH]. }
  pose proof (lookup_lt_Some _ _ _ Hcur) as Hlt.
  destruct (Forall2_lookup_l _ _ _ _ _ Hall (py_range_lookup _ _ Hlt)) as (g & Hg & Hstep).
  exists g. split; [exact Hrun|]. split; [exact Hg|].
  unfold step in Hstep.
  destruct (Z.ltb_spec 0 (Z.of_nat i)); [|lia].
  replace (Z.of_nat i - 1) with (Z.of_nat (i - 1)) in Hstep by lia.
  rewrite (iloc_lookup _ _ _ Hprev), (iloc_lookup _ _ _ Hcur) in Hstep.
  exact Hstep.
Qed.

Lemma month_over_month_is_growth_rate_witness :
  ∃ growth g,
    base_growth [100; 110; 0; 90]%Q = Ok growth
    ∧ growth !! 1%nat = Some g
    ∧ growth_rate [100; 110]%Q = Ok g.
Proof.
  apply (month_over_month_is_growth_rate [100; 110; 0; 90]%Q 1 100%Q 110%Q);
    [lia | reflexivity | reflexivity].
Defined.

(** ** The break-even block on any workbook *)

(** X8.  Whatever the workbook holds, the break-even block does not
    raise: it adds break-even lines to the log, the last of which is its
    one verdict, a status or the message that the data could not be
    extracted, and it leaves a workbook that shows the same cells. *)
Theorem break_even_block_gives_one_verdict (book : workbook) :
  ∃ book' pre verdict,
    (∀ o, break_even_analysis (mkState book o)
          = (Ok (), mkState book' (o ++ pre ++ [verdict])))
    ∧ is_break_even_verdict verdict = true
    ∧ Forall (λ ev, is_break_even_event ev = true ∧ is_break_even_verdict ev = false) pre
    ∧ same_book book book'.
Proof. exact (break_even_block_outcome book). Qed.

(** X9.  On a break-even sheet whose four cells hold numbers (or are
    blank, read as 0) the block prints the four metrics, revenue figures
    in millions and the safety margin in percent, and then the status:
    AMAN for a margin above 0.15, CUKUP AMAN for a margin above 0.08 and
    at most 0.15, PERLU PERHATIAN for a margin of at most 0.08. *)
Theorem break_even_status_thresholds
    (book : workbook) (be : worksheet) (o : list event)
    (revenue transactions current margin : Q) :
  book !! "Analisis Break-Even" = Some be →
  reads_as (cell_value be 11 2) revenue →
  reads_as (cell_value be 10 2) transactions →
  reads_as (cell_value be 14 2) current →
  reads_as (cell_value be 18 2) margin →
  ∃ book' status,
    break_even_analysis (mkState book o)
    = (Ok (), mkState book'
                (o ++ [EBreakEvenHeader;
                       EBreakEvenLine BE_Revenue (VNum (revenue / 1000000));
                       EBreakEvenLine BE_Transactions (VNum transactions);
                       EBreakEvenLine Current_Revenue (VNum (current / 1000000));
                       EBreakEvenLine Safety_Margin (VNum (margin * 100));
                       EBreakEvenStatus status]))
    ∧ ((15 # 100 < margin)%Q → status = AMAN)
    ∧ ((8 # 100 < margin)%Q → (margin <= 15 # 100)%Q → status = CUKUP_AMAN)
    ∧ ((margin <= 8 # 100)%Q → status = PERLU_PERHATIAN).
Proof.
  unfold reads_as. intros Hsheet Hr Ht Hc Hm.
  destruct (break_even_cells be) as (be' & Hcells & _).
  destruct (py_or (cell_value be 11 2) (VNum 0)) as [| |r| |]; try discriminate.
  destruct (py_or (cell_value be 10 2) (VNum 0)) as [| |t| |]; try discriminate.
  destruct (py_or (cell_value be 14 2) (VNum 0)) as [| |c| |]; try discriminate.
  destruct (py_or (cell_value be 18 2) (VNum 0)) as [| |m| |]; try discriminate.
  injection Hr as ->. injection Ht as ->. injection Hc as ->. injection Hm as ->.
  exists (<["Analisis Break-Even" := be']> book),
    (if Qgtb margin (15 # 100) then AMAN
     else if Qgtb margin (8 # 100) then CUKUP_AMAN else PERLU_PERHATIAN).
  split.
  - unfold break_even_analysis, try_except, break_even_report.
    step. step. unfold in_sheet. rewrite Hsheet, Hcells.
    repeat step. cbn [py_truediv as_number py_mul format_f py_gt].
    change (Qeq_bool 1000000 0) with false. cbn iota.
    repeat step. cbn [format_f]. repeat step.
    destruct (Qgtb margin (15 # 100)); repeat step; rewrite <- ?app_assoc; [reflexivity|].
    destruct (Qgtb margin (8 # 100)); repeat step; rewrite <- ?app_assoc; reflexivity.
  - repeat split.
    + intros Hhigh%Qgtb_true. by rewrite Hhigh.
    + intros Hmid%Qgtb_true Hle%Qgtb_false. by rewrite Hle, Hmid.
    + intros Hle. rewrite (proj2 (Qgtb_false margin (15 # 100))) by lra.
      by rewrite (proj2 (Qgtb_false margin (8 # 100))) by lra.
Qed.

Lemma break_even_status_thresholds_witness :
  ∃ book' status,
    break_even_analysis
      (mkState (<["Analisis Break-Even" :=
                    <[(18, 2) := VNum (15 # 100)]> sample_break_even_text]> sample_workbook)
         [])
    = (Ok (), mkState book'
                [EBreakEvenHeader;
                 EBreakEvenLine BE_Revenue (VNum (40000000 / 1000000));
                 EBreakEvenLine BE_Transactions (VNum 1600);
                 EBreakEvenLine Current_Revenue (VNum (50000000 / 1000000));
                 EBreakEvenLine Safety_Margin (VNum ((15 # 100) * 100));
                 EBreakEvenStatus status])
    ∧ status = CUKUP_AMAN.
Proof.
  destruct (break_even_status_thresholds
              (<["Analisis Break-Even" :=
                   <[(18, 2) := VNum (15 # 100)]> sample_break_even_text]> sample_workbook)
              (<[(18, 2) := VNum (15 # 100)]> sample_break_even_text) []
              40000000 1600 50000000 (15 # 100))
    as (book' & status & Hrun & _ & Hmid & _); try reflexivity.
  exists book', status. split; [exact Hrun|]. apply Hmid; [reflexivity | discriminate].
Defined.

(** ** The exit status and the files of a run *)

(** The three ways a run of the model ends. *)
Lemma run_cases (e : env) (o : outcome) :
  run e = Some o →
  (excel_file e = None ∧ o = mkOutcome 1 [EFileNotFound])
  ∨ (∃ book sheet_name,
       excel_file e = Some book
       ∧ (book !! "Skenario Base" = None ∨ book !! "Skenario Optimistis" = None
          ∨ book !! "Skenario Pesimistis" = None)
       ∧ o = mkOutcome 1 [ELoading; EExtractError (KeyError sheet_name)])
  ∨ (∃ book first last before block growth s c,
       excel_file e = Some book
       ∧ is_Some (book !! "Skenario Base") ∧ is_Some (book !! "Skenario Optimistis")
       ∧ is_Some (book !! "Skenario Pesimistis")
       ∧ o = mkOutcome 0
               ([ELoading; EExtracted 9 first last] ++ before ++ block
                  ++ dashboard_event e growth :: export_events e s c ++ [EComplete])
       ∧ Forall (λ ev, is_result ev = true ∧ is_output ev = false) before
       ∧ Forall (λ ev, is_break_even_event ev = true) block).
Proof.
  unfold run. destruct (excel_file e) as [book|] eqn:Hfile.
  2:{ intros [= <-]. by left. }
  destruct (book !! "Skenario Base") as [ws1|] eqn:H1.
  2:{ destruct (extract_all_missing book [ELoading]) as (name & book' & _ & ->); [auto|].
      intros [= <-]. right. left. exists book, name. auto. }
  destruct (book !! "Skenario Optimistis") as [ws2|] eqn:H2.
  2:{ destruct (extract_all_missing book [ELoading]) as (name & book' & _ & ->); [auto|].
      intros [= <-]. right. left. exists book, name. auto. }
  destruct (book !! "Skenario Pesimistis") as [ws3|] eqn:H3.
  2:{ destruct (extract_all_missing book [ELoading]) as (name & book' & _ & ->); [auto|].
      intros [= <-]. right. left. exists book, name. auto. }
  intros Hrun.
  destruct (extract_all_present book [ELoading] _ _ _ H1 H2 H3)
    as (book1 & first & last & Hextract & _).
  rewrite Hextract in Hrun.
  destruct (numeric_frame (frame_of ws1)) as [b|] eqn:Hb; [|discriminate].
  destruct (numeric_frame (frame_of ws2)) as [p|] eqn:Hp; [|discriminate].
  destruct (numeric_frame (frame_of ws3)) as [q|] eqn:Hq; [|discriminate].
  destruct (run_report e book _ _ _ _ _ _ Hfile H1 H2 H3 Hb Hp Hq)
    as (first' & last' & g & co & cb & cp & r & block & growth & _ & _ & _ & Hblock & Hrun').
  assert (Hsame : run e = Some o).
  { unfold run. rewrite Hfile, Hextract, Hb, Hp, Hq. exact Hrun. }
  rewrite Hrun' in Hsame. injection Hsame as <-.
  right. right.
  exists book, first', last', (report b g co cb cp r), block, growth,
    (summary_of b g r), (combined_of b p q).
  rewrite H1, H2, H3. repeat split; eauto. apply no_traceback_report.
Qed.

Lemma outputs_app (l k : list event) : outputs (l ++ k) = outputs l ++ outputs k.
Proof. unfold outputs. apply List.filter_app. Qed.

Lemma outputs_none (l : list event) :
  Forall (λ ev, is_output ev = false) l → outputs l = [].
Proof.
  unfold outputs. induction 1 as [|ev l Hev _ IH]; simpl; [done | by rewrite Hev].
Qed.

Lemma outputs_break_even (l : list event) :
  Forall (λ ev, is_break_even_event ev = true) l → outputs l = [].
Proof.
  intros Hl. apply outputs_none. eapply Forall_impl; [exact Hl|].
  by intros [].
Qed.

Lemma outputs_export (e : env) (s : summary_df) (c : combined_df) :
  outputs (export_events e s c) = export_events e s c.
Proof. unfold export_events. by destruct (summary_to_csv_ok e), (scenario_to_csv_ok e). Qed.

(** X10.  On a workbook whose scenario sheets, where it has them, hold
    numeric amounts, a run ends with exit status 0 or 1, and with 0
    exactly when the input file is there and holds the three scenario
    sheets: what the break-even sheet holds and whether the dashboard or
    the tables could be written does not change the exit status.  A run
    with status 0 ends on the completion message, and no such run ends in
    a traceback: on numeric columns of nine periods the statements under
    no [try] ([describe()], [std()], [corr()], [np.polyfit]) do not
    raise. *)
Theorem exit_status_of_a_run (e : env) (o : outcome) :
  run e = Some o →
  (exit_status o = 0 ∨ exit_status o = 1)
  ∧ (exit_status o = 0 ↔
       ∃ book, excel_file e = Some book
               ∧ is_Some (book !! "Skenario Base")
               ∧ is_Some (book !! "Skenario Optimistis")
               ∧ is_Some (book !! "Skenario Pesimistis"))
  ∧ (exit_status o = 0 → last (log o) = Some EComplete)
  ∧ Forall (λ ev, match ev with ETraceback _ => False | _ => True end) (log o).
Proof.
  intros [(Hfile & ->) | [(book & name & Hfile & Hmissing & ->)
    | (book & first & last & before & block & growth & s & c & Hfile & H1 & H2 & H3
       & -> & Hbefore & Hblock)]]%run_cases; cbn [exit_status log].
  - split; [by right|]. split; [|split; [done | by repeat constructor]].
    split; [done|]. intros (book & Hbook & _). congruence.
  - split; [by right|]. split; [|split; [done | by repeat constructor]].
    split; [done|]. intros (book' & Hbook & [ws1 B1] & [ws2 B2] & [ws3 B3]).
    assert (book' = book) as -> by congruence.
    destruct Hmissing as [?|[?|?]]; congruence.
  - split; [by left|]. split; [|split].
    + split; [|done]. intros _. by exists book.
    + intros _. rewrite !app_comm_cons, !app_assoc. apply last_snoc.
    + do 2 (apply Forall_cons; split; [done|]).
      rewrite !Forall_app, Forall_cons, Forall_app. repeat split.
      * eapply Forall_impl; [exact Hbefore|]. by intros [] [??].
      * eapply Forall_impl; [exact Hblock|]. by intros [].
      * unfold dashboard_event. by destruct (savefig_ok e).
      * unfold export_events.
        destruct (summary_to_csv_ok e), (scenario_to_csv_ok e); by repeat constructor.
      * by repeat constructor.
Qed.

Lemma exit_status_of_a_run_witness :
  ∃ o, run (mkEnv (Some sample_workbook_text) false false true) = Some o
       ∧ exit_status o = 0
       ∧ last (log o) = Some EComplete.
Proof.
  assert (Hrun : ∃ o, run (mkEnv (Some sample_workbook_text) false false true) = Some o)
    by (eexists; vm_compute; reflexivity).
  destruct Hrun as [o Hrun]. exists o. split; [exact Hrun|].
  destruct (exit_status_of_a_run _ o Hrun) as (_ & Hzero & Hlast & _).
  assert (Hstatus : exit_status o = 0).
  { apply Hzero. exists sample_workbook_text.
    split; [reflexivity|]. repeat split; eexists; reflexivity. }
  split; [exact Hstatus | exact (Hlast Hstatus)].
Defined.

(** X11.  The files of a run, on a workbook whose scenario sheets hold
    numeric amounts.  A run that ends with status 0 has tried
    the dashboard once and then the tables: the dashboard is saved when
    matplotlib succeeds and an error is reported otherwise, and either
    way the export follows; the summary table is written when its
    [to_csv] succeeds, and the scenario table only after the summary
    table, when its own [to_csv] succeeds too; a failed write is reported
    once and ends the export.  A run that ends with status 1 has written
    no file. *)
Theorem outputs_of_a_run (e : env) (o : outcome) :
  run e = Some o →
  (exit_status o = 0 →
     ∃ growth s c, outputs (log o) = dashboard_event e growth :: export_events e s c)
  ∧ (exit_status o ≠ 0 → outputs (log o) = []).
Proof.
  intros [(Hfile & ->) | [(book & name & Hfile & Hmissing & ->)
    | (book & first & last & before & block & growth & s & c & Hfile & H1 & H2 & H3
       & -> & Hbefore & Hblock)]]%run_cases; cbn [exit_status log].
  - split; [done | reflexivity].
  - split; [done | reflexivity].
  - split; [|done]. intros _. exists growth, s, c.
    rewrite !outputs_app, (outputs_none before), (outputs_break_even block Hblock)
      by (eapply Forall_impl; [exact Hbefore|]; by intros ? [??]).
    change (dashboard_event e growth :: export_events e s c ++ [EComplete])
      with ([dashboard_event e growth] ++ export_events e s c ++ [EComplete]).
    rewrite !outputs_app, outputs_export. simpl.
    unfold dashboard_event. destruct (savefig_ok e); simpl; by rewrite app_nil_r.
Qed.

Lemma outputs_of_a_run_witness :
  ∃ o growth s,
    run (mkEnv (Some sample_workbook) false true false) = Some o
    ∧ outputs (log o)
      = [dashboard_event (mkEnv (Some sample_workbook) false true false) growth;
         ESummaryExported s; EExportError OSError].
Proof.
  assert (Hrun : ∃ o, run (mkEnv (Some sample_workbook) false true false) = Some o
                      ∧ exit_status o = 0)
    by (eexists; split; [vm_compute; reflexivity | reflexivity]).
  destruct Hrun as (o & Hrun & Hstatus).
  destruct (outputs_of_a_run _ o Hrun) as [Hzero _].
  destruct (Hzero Hstatus) as (growth & s & c & Hout).
  exists o, growth, s. split; [exact Hrun | exact Hout].
Defined.
